(** * Amazon Best Sellers Rank scraper: a shallow embedding of
      [amazon_scraper.py] and the properties of its specification.

    Conventions of the model.
    - A Python [str] is a [string]; its characters stand for the code points
      U+0000..U+00FF.  On that range the classes [\d] and [\s] of [re] and the
      whitespace removed by [str.strip] are the ones given by [is_digit] and
      [is_space] below.
    - A Python [int] is a [Z]; a [float] is not represented: the script only
      makes floats by dividing two [int]s, which raises when the quotient is
      beyond the largest float, and prints them.
    - The interpreter is CPython 3.11 or later on a 64-bit platform, with
      its defaults: conversions between [int] and decimal text stop at 4300
      digits, and [time.sleep] at the range of its 64-bit clock.
    - A Python exception is an [exn]; code that may raise returns a [result].
    - The libraries the script calls ([requests], [bs4], [datetime]) are
      parameters, gathered in the class [Library]; every call of [requests]
      and [bs4] is allowed to raise.  The text of [amazon_urls.txt] is an
      argument of [main].
    - Console output, network requests, suspensions and file writes are
      recorded, in order, in a [history] that the effectful functions thread. *)

From Stdlib Require Import String Ascii List ZArith NArith Bool Arith Lia.
From Stdlib Require Import DecimalString.
Import ListNotations.

Local Open Scope string_scope.
Local Open Scope list_scope.

(** ** Exceptions *)

(** [except requests.exceptions.RequestException] is tried first and
    [except Exception] second, so the handlers only tell a request exception
    from any other one. *)
Inductive exn : Type :=
| RequestException (msg : string)
| ValueError (msg : string)
| OverflowError (msg : string)
| OtherException (msg : string).

(** [str(e)] *)
Definition str_exn (e : exn) : string :=
  match e with
  | RequestException msg | ValueError msg | OverflowError msg
  | OtherException msg => msg
  end.

Definition result (A : Type) : Type := (exn + A)%type.

Definition ret {A : Type} (a : A) : result A := inr a.
Definition raise {A : Type} (e : exn) : result A := inl e.

Definition bind {A B : Type} (m : result A) (f : A -> result B) : result B :=
  match m with
  | inl e => inl e
  | inr a => f a
  end.

Declare Scope result_scope.
Delimit Scope result_scope with result.
Notation "x <- m ;; k" := (bind m (fun x => k))
  (at level 61, m at next level, right associativity) : result_scope.
Local Open Scope result_scope.

(** ** Characters and strings *)

Definition code (c : ascii) : N := N_of_ascii c.

(** [\d] *)
Definition is_digit (c : ascii) : bool :=
  ((48 <=? code c) && (code c <=? 57))%N.

(** [\s], and the characters [str.strip()] removes. *)
Definition is_space (c : ascii) : bool :=
  match code c with
  | 9 | 10 | 11 | 12 | 13 | 28 | 29 | 30 | 31 | 32 | 133 | 160 => true
  | _ => false
  end%N.

(** [[\d,]] *)
Definition is_digit_or_comma (c : ascii) : bool :=
  is_digit c || Ascii.eqb c ","%char.

(** [[^\(]] *)
Definition not_lparen (c : ascii) : bool :=
  negb (Ascii.eqb c "("%char).

(** [[A-Z0-9]] *)
Definition is_upper_alnum (c : ascii) : bool :=
  (((65 <=? code c) && (code c <=? 90)) || ((48 <=? code c) && (code c <=? 57)))%N.

(** Lower-casing of the letters A-Z, for [re.IGNORECASE]. *)
Definition lower (c : ascii) : ascii :=
  if ((65 <=? code c) && (code c <=? 90))%N then ascii_of_N (code c + 32) else c.

Fixpoint str_all (p : ascii -> bool) (s : string) : bool :=
  match s with
  | EmptyString => true
  | String c s' => p c && str_all p s'
  end.

Fixpoint str_any (p : ascii -> bool) (s : string) : bool :=
  match s with
  | EmptyString => false
  | String c s' => p c || str_any p s'
  end.

Definition is_empty (s : string) : bool :=
  match s with EmptyString => true | _ => false end.

(** [s.lstrip()] *)
Fixpoint lstrip (s : string) : string :=
  match s with
  | EmptyString => EmptyString
  | String c s' => if is_space c then lstrip s' else s
  end.

(** [s.rstrip()] *)
Fixpoint rstrip (s : string) : string :=
  match s with
  | EmptyString => EmptyString
  | String c s' =>
      let r := rstrip s' in
      if is_space c && is_empty r then EmptyString else String c r
  end.

(** [s.strip()] *)
Definition strip (s : string) : string := rstrip (lstrip s).

(** [s.replace(c, '')] for a one-character [c]. *)
Fixpoint remove_char (c : ascii) (s : string) : string :=
  match s with
  | EmptyString => EmptyString
  | String d s' =>
      if Ascii.eqb d c then remove_char c s' else String d (remove_char c s')
  end.

(** [s.startswith(p)] *)
Fixpoint startswith (p s : string) : bool :=
  match p, s with
  | EmptyString, _ => true
  | String a p', String b s' => Ascii.eqb a b && startswith p' s'
  | String _ _, EmptyString => false
  end.

(** [p in s] *)
Fixpoint contains (p s : string) : bool :=
  startswith p s ||
  match s with
  | EmptyString => false
  | String _ s' => contains p s'
  end.

(** [s[:n]] *)
Fixpoint take (n : nat) (s : string) : string :=
  match n, s with
  | S n', String c s' => String c (take n' s')
  | _, _ => EmptyString
  end.

(** ** [int] of a string of decimal digits *)

Definition digit_value (c : ascii) : Z := Z.of_N (code c) - 48.

Fixpoint int_digits (acc : Z) (s : string) : Z :=
  match s with
  | EmptyString => acc
  | String c s' => int_digits (10 * acc + digit_value c) s'
  end.

(** [sys.get_int_max_str_digits()], at its default. *)
Definition int_max_str_digits : Z := 4300.

(** [str(n)] for a count *)
Definition decimal (n : nat) : string :=
  NilZero.string_of_uint (N.to_uint (N.of_nat n)).

(** [int(s)].  The script only applies it to the capture of [[\d,]+] with the
    commas removed, a possibly empty string of digits; [int('')] raises
    [ValueError], and so does a string of more than 4300 digits, leading
    zeros counted. *)
Definition py_int (s : string) : result Z :=
  if is_empty s || negb (str_all is_digit s)
  then raise (ValueError ("invalid literal for int() with base 10: '" ++ s ++ "'"))
  else if (int_max_str_digits <? Z.of_nat (String.length s))%Z
  then raise (ValueError
                ("Exceeds the limit (4300 digits) for integer string conversion: value has "
                   ++ decimal (String.length s)
                   ++ " digits; use sys.set_int_max_str_digits() to increase the limit"))
  else ret (int_digits 0 s).

(** Can [n] be written in decimal, as [str(n)], [repr(n)] and the format
    [{n:,}] do?  Not with more than 4300 digits. *)
Definition int_str_fits (n : Z) : bool :=
  (Z.abs n <? 10 ^ int_max_str_digits)%Z.

Definition int_str_error : exn :=
  ValueError "Exceeds the limit (4300 digits) for integer string conversion; use sys.set_int_max_str_digits() to increase the limit".

(** [a / b] on two [int]s is the float nearest to the quotient, and raises
    [OverflowError] when that is beyond the largest float: when the
    quotient reaches [2^1024 - 2^970], halfway between the largest float and
    [2^1024].  ([b] is never zero in the script.) *)
Definition float_limit : Z := 2 ^ 1024 - 2 ^ 970.

Definition true_divide_fits (a b : Z) : bool :=
  (Z.abs a <? Z.abs b * float_limit)%Z.

Definition true_divide_error : exn :=
  OverflowError "integer division result too large for a float".

(** ** A backtracking matcher for the patterns of the script

    Each combinator takes the input left to match and a continuation that
    receives what the combinator consumed and the input that remains; a
    failing continuation makes the combinator try its next alternative, in
    the order [re] tries them. *)

Section Matcher.
Context {R : Type}.

(** a literal string *)
Fixpoint lit (p s : string) (k : string -> option R) : option R :=
  match p with
  | EmptyString => k s
  | String a p' =>
      match s with
      | String b s' => if Ascii.eqb a b then lit p' s' k else None
      | EmptyString => None
      end
  end.

(** [c*], greedy: the longest run first, then one character less at a time *)
Fixpoint star_greedy (cls : ascii -> bool) (s : string)
         (k : string -> string -> option R) : option R :=
  match s with
  | String c s' =>
      if cls c then
        match star_greedy cls s' (fun m r => k (String c m) r) with
        | Some x => Some x
        | None => k EmptyString s
        end
      else k EmptyString s
  | EmptyString => k EmptyString s
  end.

(** [c+], greedy *)
Definition plus_greedy (cls : ascii -> bool) (s : string)
           (k : string -> string -> option R) : option R :=
  match s with
  | String c s' =>
      if cls c then star_greedy cls s' (fun m r => k (String c m) r) else None
  | EmptyString => None
  end.

(** [c*?], lazy: the shortest run first, then one character more at a time *)
Fixpoint star_lazy (cls : ascii -> bool) (s : string)
         (k : string -> string -> option R) : option R :=
  match k EmptyString s with
  | Some x => Some x
  | None =>
      match s with
      | String c s' =>
          if cls c then star_lazy cls s' (fun m r => k (String c m) r) else None
      | EmptyString => None
      end
  end.

(** [c+?], lazy *)
Definition plus_lazy (cls : ascii -> bool) (s : string)
           (k : string -> string -> option R) : option R :=
  match s with
  | String c s' =>
      if cls c then star_lazy cls s' (fun m r => k (String c m) r) else None
  | EmptyString => None
  end.

(** [c{n}] *)
Fixpoint exactly (n : nat) (cls : ascii -> bool) (s : string)
         (k : string -> string -> option R) : option R :=
  match n with
  | O => k EmptyString s
  | S n' =>
      match s with
      | String c s' =>
          if cls c then exactly n' cls s' (fun m r => k (String c m) r) else None
      | EmptyString => None
      end
  end.

(** [a|b]: the left branch first *)
Definition alt (a b : option R) : option R :=
  match a with
  | Some x => Some x
  | None => b
  end.
End Matcher.

(** [$] without [re.MULTILINE]: at the end of the string, and just before a
    newline that ends the string. *)
Definition at_dollar (s : string) : bool :=
  match s with
  | EmptyString => true
  | String c EmptyString => Ascii.eqb c "010"%char
  | _ => false
  end.

(** [(?:\s*\(|$)], after which the match is complete; [rank] and [category]
    are the two groups. *)
Definition category_end (rank category : string) (s6 : string)
  : option (string * string * string) :=
  alt (star_greedy is_space s6 (fun _ s7 =>
       lit "(" s7 (fun s8 => Some (rank, category, s8))))
      (if at_dollar s6 then Some (rank, category, s6) else None).

(** One match attempt of
    [#([\d,]+)\s+in\s+([^\(]+?)(?:\s*\(|$)]
    at the start of [s]: the two groups and the input after the match. *)
Definition rank_pattern (s : string) : option (string * string * string) :=
  lit "#" s (fun s1 =>
  plus_greedy is_digit_or_comma s1 (fun rank s2 =>
  plus_greedy is_space s2 (fun _ s3 =>
  lit "in" s3 (fun s4 =>
  plus_greedy is_space s4 (fun _ s5 =>
  plus_lazy not_lparen s5 (fun category s6 =>
  category_end rank category s6)))))).

(** [re.findall(pattern, s)]: the scan tries every position from left to
    right and resumes after a match.  [skip] counts the characters of the
    last match that are still to be passed over (a match of this pattern is
    never empty). *)
Fixpoint findall_from (skip : nat) (s : string) : list (string * string) :=
  match s with
  | EmptyString => []
  | String _ s' =>
      match skip with
      | S n => findall_from n s'
      | O =>
          match rank_pattern s with
          | Some (rank, category, rest) =>
              (rank, category) :: findall_from (String.length s' - String.length rest) s'
          | None => findall_from 0 s'
          end
      end
  end.

Definition findall_rank (s : string) : list (string * string) :=
  findall_from 0 s.

(** One match attempt of [/dp/([A-Z0-9]{10})] at the start of [s]. *)
Definition asin_pattern (s : string) : option string :=
  lit "/dp/" s (fun s1 =>
  exactly 10 is_upper_alnum s1 (fun m _ => Some m)).

(** [re.search(r'/dp/([A-Z0-9]{10})', url)], reduced to [group(1)] of the
    leftmost match. *)
Fixpoint search_asin (s : string) : option string :=
  match asin_pattern s with
  | Some m => Some m
  | None =>
      match s with
      | String _ s' => search_asin s'
      | EmptyString => None
      end
  end.

(** [re.compile(p, re.IGNORECASE).search(s)] for a pattern [p] of literal
    characters, as a test. *)
Fixpoint startswith_ci (p s : string) : bool :=
  match p, s with
  | EmptyString, _ => true
  | String a p', String b s' => Ascii.eqb (lower a) (lower b) && startswith_ci p' s'
  | String _ _, EmptyString => false
  end.

Fixpoint search_ci (p s : string) : bool :=
  startswith_ci p s ||
  match s with
  | EmptyString => false
  | String _ s' => search_ci p s'
  end.

(** ** Ranking entries (lines 56-62, and their three copies) *)

Record RankingEntry : Type := {
  rank : Z;
  rank_formatted : string;
  category : string
}.

(** The loop [for rank, category in rank_matches: rankings.append({...})]. *)
Fixpoint append_entries (rankings : list RankingEntry)
         (rank_matches : list (string * string)) : result (list RankingEntry) :=
  match rank_matches with
  | [] => ret rankings
  | (rank, category) :: rest =>
      n <- py_int (remove_char "," rank) ;;
      append_entries
        (rankings ++ [{| rank := n; rank_formatted := rank; category := strip category |}])
        rest
  end.

(** [rank_matches = re.findall(..., rank_text)] followed by the loop. *)
Definition extract_rankings (rankings : list RankingEntry) (rank_text : string)
  : result (list RankingEntry) :=
  append_entries rankings (findall_rank rank_text).

Definition nl : string := String "010"%char EmptyString.

(** ** Product records and the recorded effects *)

(** The dictionary [get_product_bsr] returns.  The key ['error'] exists on the
    two error paths only, hence the option. *)
Record ProductRecord : Type := {
  url : string;
  asin : string;
  title : string;
  primary_rank : option Z;
  primary_rank_formatted : string;
  primary_category : string;
  all_rankings : list RankingEntry;
  timestamp : string;
  status : string;
  error : option string
}.

(** What [print] writes; numbers are kept as numbers, so that no formatting
    of floats is needed. *)
Inductive message : Type :=
| Line (text : string)
| MsgStarting (total : nat)
| MsgEstimated (total : nat) (delay : Z)
| MsgProcessing (i total : nat) (url60 : string)
| MsgBSR (rank_formatted category : string)
| MsgError (error : string)
| MsgSaved (filename : string)
| MsgLoaded (n : nat)
| MsgTotal (n : nat)
| MsgSuccessful (n : nat)
| MsgFailed (n : nat)
| MsgAverage (sum : Z) (count : nat)
| MsgBest (best_rank : Z)
| MsgWorst (worst_rank : Z)
| MsgTraceback (e : exn).

(** What a file holds once it is closed.  [JsonTruncated results] is a
    beginning of the text of [results], left by a [json.dump] that raised. *)
Inductive file_content : Type :=
| Csv (rows : list (list string))
| Json (results : list ProductRecord)
| JsonTruncated (results : list ProductRecord).

Inductive event : Type :=
| EvPrint (m : message)
| EvGet (url : string)
| EvSleep (seconds : Z)
| EvWrite (filename : string) (content : file_content).

Definition history : Type := list event.

(** ** The libraries the script calls *)

Class Library : Type := {
  Response : Type;
  Tag : Type;
  (** [requests.get(url, headers=headers, timeout=15)]; the answer may depend
      on everything that happened before *)
  requests_get : history -> string -> result Response;
  (** [response.raise_for_status()] *)
  raise_for_status : Response -> result unit;
  (** [response.content] *)
  content : Response -> string;
  (** [BeautifulSoup(markup, 'html.parser')] *)
  BeautifulSoup : string -> result Tag;
  (** [t.find(name, {key: value})] *)
  find_attr : Tag -> string -> string -> string -> result (option Tag);
  (** [t.find(name, string=pattern)], the pattern given by its [search] *)
  find_string : Tag -> string -> (string -> bool) -> result (option Tag);
  (** [t.find_all(name, string=pattern)] *)
  find_all_string : Tag -> string -> (string -> bool) -> result (list Tag);
  (** [t.find_next(name)] *)
  find_next : Tag -> string -> result (option Tag);
  (** [t.find_parent(name)] *)
  find_parent : Tag -> string -> result (option Tag);
  (** [t.get_text()] *)
  get_text : Tag -> result string;
  (** [datetime.now().strftime('%Y-%m-%d %H:%M:%S')] *)
  now : history -> string
}.

(** The longest suspension, in seconds: what a signed 64-bit count of
    nanoseconds holds. *)
Definition sleep_max : Z := 9223372036.

(** [time.sleep(seconds)] for an [int]: the length is first converted to
    nanoseconds, which raises [OverflowError] outside the range of the
    clock (the wording of the message depends on the version), and a
    negative length is then refused. *)
Definition time_sleep (seconds : Z) (h : history) : result unit * history :=
  if ((seconds <? - sleep_max) || (sleep_max <? seconds))%Z
  then (raise (OverflowError "timestamp too large to convert to C PyTime_t"), h)
  else if (seconds <? 0)%Z
  then (raise (ValueError "sleep length must be non-negative"), h)
  else (ret tt, h ++ [EvSleep seconds]).

Definition is_nil {A : Type} (l : list A) : bool :=
  match l with [] => true | _ => false end.

Section Scraper.
Context {L : Library}.

Definition best_sellers_rank : string -> bool := search_ci "Best Sellers Rank".

(** Method 1: product details table (lines 50-62). *)
Definition method_1 (soup : Tag) (rankings : list RankingEntry)
  : result (list RankingEntry) :=
  rank_section <- find_string soup "th" best_sellers_rank ;;
  match rank_section with
  | Some rank_section =>
      rank_data <- find_next rank_section "td" ;;
      match rank_data with
      | Some rank_data =>
          rank_text <- get_text rank_data ;;
          extract_rankings rankings rank_text
      | None => ret rankings
      end
  | None => ret rankings
  end.

(** The loop [for span in spans] of Method 2 (lines 72-82). *)
Fixpoint spans_loop (spans : list Tag) (rankings : list RankingEntry)
  : result (list RankingEntry) :=
  match spans with
  | [] => ret rankings
  | span :: rest =>
      li <- find_parent span "li" ;;
      parent <- match li with
                | Some p => ret (Some p)
                | None => find_parent span "span"
                end ;;
      rankings' <- match parent with
                   | Some parent =>
                       rank_text <- get_text parent ;;
                       extract_rankings rankings rank_text
                   | None => ret rankings
                   end ;;
      spans_loop rest rankings'
  end.

(** Method 2: detail bullets section (lines 64-91), entered when
    [rankings] is empty. *)
Definition method_2 (soup : Tag) (rankings : list RankingEntry)
  : result (list RankingEntry) :=
  detail_bullets <- find_attr soup "div" "id" "detailBulletsWrapper_feature_div" ;;
  match detail_bullets with
  | Some detail_bullets =>
      bsr_li <- find_string detail_bullets "li" best_sellers_rank ;;
      match bsr_li with
      | None =>
          spans <- find_all_string detail_bullets "span" best_sellers_rank ;;
          spans_loop spans rankings
      | Some bsr_li =>
          rank_text <- get_text bsr_li ;;
          extract_rankings rankings rank_text
      end
  | None => ret rankings
  end.

(** Method 3: product details section, newer layout (lines 93-105),
    entered when [rankings] is still empty. *)
Definition method_3 (soup : Tag) (rankings : list RankingEntry)
  : result (list RankingEntry) :=
  detail_section <- find_attr soup "div" "id" "detailBullets_feature_div" ;;
  match detail_section with
  | Some detail_section =>
      bsr_text <- get_text detail_section ;;
      if contains "Best Sellers Rank" bsr_text
      then extract_rankings rankings bsr_text
      else ret rankings
  | None => ret rankings
  end.

(** Lines 48-105: [rankings = []] and the three methods, the second and
    the third under [if not rankings]. *)
Definition get_rankings (soup : Tag) : result (list RankingEntry) :=
  rankings <- method_1 soup [] ;;
  rankings <- (if is_nil rankings then method_2 soup rankings else ret rankings) ;;
  rankings <- (if is_nil rankings then method_3 soup rankings else ret rankings) ;;
  ret rankings.

(** Lines 44-45. *)
Definition extract_asin (url : string) : string :=
  match search_asin url with
  | Some asin_match => asin_match
  | None => "N/A"
  end.

(** The body of the [try] block (lines 34-120); [h] is the history at the
    time of the request. *)
Definition try_block (url : string) (h : history) : result ProductRecord :=
  response <- requests_get h url ;;
  _ <- raise_for_status response ;;
  soup <- BeautifulSoup (content response) ;;
  title_element <- find_attr soup "span" "id" "productTitle" ;;
  title <- match title_element with
           | Some title_element =>
               text <- get_text title_element ;;
               ret (strip text)
           | None => ret "Title not found"
           end ;;
  let asin := extract_asin url in
  rankings <- get_rankings soup ;;
  let primary_rank := hd_error rankings in
  ret {| url := url;
         asin := asin;
         title := title;
         primary_rank := match primary_rank with
                         | Some r => Some (rank r)
                         | None => None
                         end;
         primary_rank_formatted := match primary_rank with
                                   | Some r => rank_formatted r
                                   | None => "Not found"
                                   end;
         primary_category := match primary_rank with
                             | Some r => category r
                             | None => "N/A"
                             end;
         all_rankings := rankings;
         timestamp := now h;
         status := "success";
         error := None |}.

(** The record of both [except] clauses, up to the message. *)
Definition error_record (url : string) (h : history) (msg : string)
  : ProductRecord :=
  {| url := url;
     asin := "N/A";
     title := "Error";
     primary_rank := None;
     primary_rank_formatted := "Error";
     primary_category := "N/A";
     all_rankings := [];
     timestamp := now h;
     status := "error";
     error := Some msg |}.

Definition get_product_bsr (url : string) (h : history)
  : ProductRecord * history :=
  let h1 := h ++ [EvGet url] in
  match try_block url h1 with
  | inr record => (record, h1)
  | inl (RequestException msg) => (error_record url h1 msg, h1)
  | inl e => (error_record url h1 ("Parsing error: " ++ str_exn e), h1)
  end.

(** The loop of [process_products] (lines 166-178); [i] is the index
    [enumerate(urls, 1)] gives to the head of [urls]. *)
Fixpoint process_loop (delay : Z) (total : nat) (i : nat) (urls : list string)
         (results : list ProductRecord) (h : history)
  : result (list ProductRecord) * history :=
  match urls with
  | [] => (ret results, h)
  | url :: rest =>
      let h1 := h ++ [EvPrint (MsgProcessing i total (take 60 url))] in
      let (result, h2) := get_product_bsr url h1 in
      let results' := results ++ [result] in
      let h3 :=
        h2 ++ [EvPrint (if String.eqb (status result) "success"
                      then MsgBSR (primary_rank_formatted result)
                                  (primary_category result)
                      else MsgError (match error result with
                                     | Some msg => msg
                                     | None => "Unknown error"
                                     end))] in
      if (i <? total)%nat then
        match time_sleep delay h3 with
        | (inl e, h4) => (inl e, h4)
        | (inr _, h4) => process_loop delay total (S i) rest results' h4
        end
      else process_loop delay total (S i) rest results' h3
  end.

(** Line 164 divides [total * delay] by 60 to print the estimate. *)
Definition process_products (urls : list string) (delay : Z) (h : history)
  : result (list ProductRecord) * history :=
  let total := List.length urls in
  let h1 := h ++ [EvPrint (MsgStarting total)] in
  if true_divide_fits (Z.of_nat total * delay) 60
  then process_loop delay total 1 urls [] (h1 ++ [EvPrint (MsgEstimated total delay)])
  else (raise true_divide_error, h1).
End Scraper.

(** ** Reports (lines 182-232) *)

(** [sep.join(l)] *)
Fixpoint join (sep : string) (l : list string) : string :=
  match l with
  | [] => EmptyString
  | [x] => x
  | x :: rest => (x ++ sep ++ join sep rest)%string
  end.

Definition csv_header : list string :=
  ["ASIN"; "Product Title"; "Primary BSR"; "Primary Category"; "All Rankings";
   "URL"; "Timestamp"; "Status"].

Definition csv_row (result : ProductRecord) : list string :=
  let all_ranks :=
    join "; " (map (fun r => ("#" ++ rank_formatted r ++ " in " ++ category r)%string)
                   (all_rankings result)) in
  [asin result; title result; primary_rank_formatted result;
   primary_category result; all_ranks; url result; timestamp result;
   status result].

Definition save_to_csv (results : list ProductRecord) (filename : string)
           (h : history) : history :=
  h ++ [EvWrite filename (Csv (csv_header :: map csv_row results));
        EvPrint (MsgSaved filename)].

(** the [int]s [json.dump] has to write for a record *)
Definition record_ints (r : ProductRecord) : list Z :=
  match primary_rank r with
  | Some n => [n]
  | None => []
  end ++ map rank (all_rankings r).

(** [json.dump] writes the text piece by piece and raises at the first
    [int] of more than 4300 digits. *)
Definition save_to_json (results : list ProductRecord) (filename : string)
           (h : history) : result unit * history :=
  if forallb int_str_fits (flat_map record_ints results)
  then (ret tt, h ++ [EvWrite filename (Json results); EvPrint (MsgSaved filename)])
  else (raise int_str_error, h ++ [EvWrite filename (JsonTruncated results)]).

(** the truth value of [r['primary_rank']] *)
Definition known_rank (r : ProductRecord) : bool :=
  match primary_rank r with
  | Some n => negb (n =? 0)%Z
  | None => false
  end.

Definition rank_of (r : ProductRecord) : Z :=
  match primary_rank r with
  | Some n => n
  | None => 0%Z
  end.

(** ['='*60] *)
Definition rule : string := string_of_list_ascii (repeat "="%char 60).

(** Line 225 divides the sum of the ranks by their number; lines 231 and
    232 write the best and the worst rank in decimal. *)
Definition display_summary (results : list ProductRecord) (h : history)
  : result unit * history :=
  let successful :=
    List.length (filter (fun r => String.eqb (status r) "success") results) in
  let failed := (List.length results - successful)%nat in
  let successful_results :=
    filter (fun r => String.eqb (status r) "success" && known_rank r) results in
  let h1 :=
    h ++ [EvPrint (Line (nl ++ rule)); EvPrint (Line "SUMMARY");
          EvPrint (Line rule); EvPrint (MsgTotal (List.length results));
          EvPrint (MsgSuccessful successful); EvPrint (MsgFailed failed)] in
  match map rank_of successful_results with
  | [] => (ret tt, h1)
  | r :: ranks =>
      let total_rank := fold_left Z.add ranks r in
      let count := S (List.length ranks) in
      if true_divide_fits total_rank (Z.of_nat count) then
        let best_rank := fold_left Z.min ranks r in
        let worst_rank := fold_left Z.max ranks r in
        let h2 := h1 ++ [EvPrint (Line (nl ++ "Ranking Statistics:"));
                         EvPrint (MsgAverage total_rank count)] in
        if int_str_fits best_rank then
          let h3 := h2 ++ [EvPrint (MsgBest best_rank)] in
          if int_str_fits worst_rank
          then (ret tt, h3 ++ [EvPrint (MsgWorst worst_rank)])
          else (raise int_str_error, h3)
        else (raise int_str_error, h2)
      else (raise true_divide_error, h1)
  end.

(** ** The main program (lines 235-266) *)

Definition CR : ascii := "013"%char.
Definition LF : ascii := "010"%char.

(** Text mode reads a carriage return, alone or followed by a line feed, as
    a line feed. *)
Fixpoint universal_newlines (s : string) : string :=
  match s with
  | EmptyString => EmptyString
  | String c s' =>
      if Ascii.eqb c CR then
        match s' with
        | String d s'' =>
            if Ascii.eqb d LF then String LF (universal_newlines s'')
            else String LF (universal_newlines s')
        | EmptyString => String LF EmptyString
        end
      else String c (universal_newlines s')
  end.

(** [for line in f]: the lines, each with the newline that ends it. *)
Fixpoint lines (s : string) : list string :=
  match s with
  | EmptyString => []
  | String c s' =>
      if Ascii.eqb c LF then String c EmptyString :: lines s'
      else match lines s' with
           | l :: ls => String c l :: ls
           | [] => [String c EmptyString]
           end
  end.

(** Line 239. *)
Definition load_urls (file : string) : list string :=
  map strip
      (filter (fun line => negb (is_empty (strip line)) && startswith "http" (strip line))
              (lines (universal_newlines file))).

Section Main.
Context {L : Library}.

(** [amazon_urls_txt] is the text of the file [amazon_urls.txt], [None]
    when the file does not exist.  The result is the exit status of the
    process and the history of the run; an exception that nothing catches
    ends the run with a traceback and status 1. *)
Definition main (amazon_urls_txt : option string) (h : history) : Z * history :=
  match amazon_urls_txt with
  | None =>
      (1%Z,
       h ++ [EvPrint (Line "Error: amazon_urls.txt not found!");
             EvPrint (Line "Please create amazon_urls.txt with one Amazon URL per line.");
             EvPrint (Line (nl ++ "Example content:"));
             EvPrint (Line "https://www.amazon.com/dp/B08N5WRWNW");
             EvPrint (Line "https://www.amazon.com/dp/B0BSHF7WHW")])
  | Some file =>
      let product_urls := load_urls file in
      if is_nil product_urls then
        (1%Z,
         h ++ [EvPrint (Line "Error: No valid URLs found in amazon_urls.txt");
               EvPrint (Line "Please create amazon_urls.txt with one Amazon URL per line.")])
      else
        let h1 := h ++ [EvPrint (MsgLoaded (List.length product_urls))] in
        match process_products product_urls 3 h1 with
        | (inl e, h2) => (1%Z, h2 ++ [EvPrint (MsgTraceback e)])
        | (inr results, h2) =>
            let h3 := save_to_csv results "amazon_bsr_results.csv" h2 in
            match save_to_json results "amazon_bsr_results.json" h3 with
            | (inl e, h4) => (1%Z, h4 ++ [EvPrint (MsgTraceback e)])
            | (inr _, h4) =>
                match display_summary results h4 with
                | (inl e, h5) => (1%Z, h5 ++ [EvPrint (MsgTraceback e)])
                | (inr _, h5) => (0%Z, h5)
                end
            end
        end
  end.
End Main.

(** ** A document tree

    An implementation of [Library] over a small document tree, following
    the documented behaviour of Beautiful Soup for the calls the script
    makes; it serves to run the script on concrete pages. *)

#[local] Unset Elimination Schemes.
Inductive node : Type :=
| Text (s : string)
| Element (name : string) (attrs : list (string * string)) (contents : list node).

#[local] Set Elimination Schemes.

Record http_response : Type := {
  status_code : Z;
  body : string
}.

(** A tag is a place in a document; the empty path is the document itself. *)
Record handle : Type := {
  document : list node;
  path : list nat
}.

Definition path_eqb (p q : list nat) : bool :=
  if list_eq_dec Nat.eq_dec p q then true else false.

(** The nodes of a tree in document order, each with its path. *)
Fixpoint walk (p : list nat) (n : node) {struct n} : list (list nat * node) :=
  (p, n) ::
  match n with
  | Text _ => []
  | Element _ _ cs =>
      (fix walk_children (i : nat) (cs : list node) {struct cs} :=
         match cs with
         | [] => []
         | c :: cs' => walk (p ++ [i]) c ++ walk_children (S i) cs'
         end) 0%nat cs
  end.

Fixpoint walk_contents (p : list nat) (i : nat) (cs : list node)
  : list (list nat * node) :=
  match cs with
  | [] => []
  | c :: cs' => walk (p ++ [i]) c ++ walk_contents p (S i) cs'
  end.

Fixpoint contents_at (cs : list node) (p : list nat) : option (list node) :=
  match p with
  | [] => Some cs
  | i :: p' =>
      match nth_error cs i with
      | Some (Element _ _ cs') => contents_at cs' p'
      | _ => None
      end
  end.

Fixpoint node_at (cs : list node) (p : list nat) : option node :=
  match p with
  | [] => None
  | i :: p' =>
      match nth_error cs i with
      | Some n =>
          match p', n with
          | [], _ => Some n
          | _, Element _ _ cs' => node_at cs' p'
          | _, Text _ => None
          end
      | None => None
      end
  end.

(** [.descendants] *)
Definition descendants (t : handle) : list (list nat * node) :=
  match contents_at (document t) (path t) with
  | Some cs => walk_contents (path t) 0 cs
  | None => []
  end.

Fixpoint after (p : list nat) (l : list (list nat * node)) : list (list nat * node) :=
  match l with
  | [] => []
  | (q, _) :: l' => if path_eqb p q then l' else after p l'
  end.

(** [.next_elements] *)
Definition next_elements (t : handle) : list (list nat * node) :=
  let everything := walk_contents [] 0 (document t) in
  match path t with
  | [] => everything
  | _ => after (path t) everything
  end.

(** [.parents], the nearest first, without the document itself *)
Fixpoint proper_prefixes (p : list nat) : list (list nat) :=
  match p with
  | [] => []
  | i :: p' =>
      map (cons i) (proper_prefixes p') ++
      match p' with
      | [] => []
      | _ => [[i]]
      end
  end.

(** [.string] *)
Fixpoint node_string (n : node) : option string :=
  match n with
  | Text s => Some s
  | Element _ _ [c] => node_string c
  | Element _ _ _ => None
  end.

Fixpoint node_text (n : node) : string :=
  match n with
  | Text s => s
  | Element _ _ cs =>
      (fix texts (cs : list node) : string :=
         match cs with
         | [] => EmptyString
         | c :: cs' => (node_text c ++ texts cs')%string
         end) cs
  end.

Fixpoint lookup (key : string) (attrs : list (string * string)) : option string :=
  match attrs with
  | [] => None
  | (k, v) :: attrs' => if String.eqb k key then Some v else lookup key attrs'
  end.

Definition named (name : string) (n : node) : bool :=
  match n with
  | Element nm _ _ => String.eqb nm name
  | Text _ => false
  end.

Definition has_attr (key value : string) (n : node) : bool :=
  match n with
  | Element _ attrs _ =>
      match lookup key attrs with
      | Some v => String.eqb v value
      | None => false
      end
  | Text _ => false
  end.

Definition string_matches (pattern : string -> bool) (n : node) : bool :=
  match node_string n with
  | Some s => pattern s
  | None => false
  end.

Definition first_tag (doc : list node) (test : node -> bool)
           (l : list (list nat * node)) : option handle :=
  match find (fun pn => test (snd pn)) l with
  | Some (p, _) => Some {| document := doc; path := p |}
  | None => None
  end.

Definition all_tags (doc : list node) (test : node -> bool)
           (l : list (list nat * node)) : list handle :=
  map (fun pn => {| document := doc; path := fst pn |})
      (filter (fun pn => test (snd pn)) l).

Definition tree_find_parent (t : handle) (name : string) : option handle :=
  match find (fun q => match node_at (document t) q with
                       | Some n => named name n
                       | None => false
                       end) (proper_prefixes (path t)) with
  | Some q => Some {| document := document t; path := q |}
  | None => None
  end.

Definition tree_get_text (t : handle) : string :=
  match path t with
  | [] => node_text (Element "[document]" [] (document t))
  | _ =>
      match node_at (document t) (path t) with
      | Some n => node_text n
      | None => EmptyString
      end
  end.

Definition tree_raise_for_status (r : http_response) : result unit :=
  if ((400 <=? status_code r) && (status_code r <? 600))%Z
  then raise (RequestException "HTTP error")
  else ret tt.

Definition tree_library (network : string -> result http_response)
           (parser : string -> list node) (clock : history -> string) : Library :=
  {| Response := http_response;
     Tag := handle;
     requests_get := fun _ url => network url;
     raise_for_status := tree_raise_for_status;
     content := body;
     BeautifulSoup := fun markup => ret {| document := parser markup; path := [] |};
     find_attr := fun t name key value =>
       ret (first_tag (document t)
                      (fun n => named name n && has_attr key value n)
                      (descendants t));
     find_string := fun t name pattern =>
       ret (first_tag (document t)
                      (fun n => named name n && string_matches pattern n)
                      (descendants t));
     find_all_string := fun t name pattern =>
       ret (all_tags (document t)
                     (fun n => named name n && string_matches pattern n)
                     (descendants t));
     find_next := fun t name =>
       ret (first_tag (document t) (named name) (next_elements t));
     find_parent := fun t name => ret (tree_find_parent t name);
     get_text := fun t => ret (tree_get_text t);
     now := clock |}.

(** ** Observations on a history *)

(** the URLs requested, in order *)
Fixpoint requests (h : history) : list string :=
  match h with
  | [] => []
  | EvGet url :: h' => url :: requests h'
  | _ :: h' => requests h'
  end.

(** the suspensions, in order *)
Fixpoint suspensions (h : history) : list Z :=
  match h with
  | [] => []
  | EvSleep seconds :: h' => seconds :: suspensions h'
  | _ :: h' => suspensions h'
  end.

(** the names of the files written, in order *)
Fixpoint writes (h : history) : list string :=
  match h with
  | [] => []
  | EvWrite filename _ :: h' => filename :: writes h'
  | _ :: h' => writes h'
  end.

(** the requests and the suspensions, in order: console output left out *)
Fixpoint schedule_of (h : history) : list event :=
  match h with
  | [] => []
  | EvGet url :: h' => EvGet url :: schedule_of h'
  | EvSleep seconds :: h' => EvSleep seconds :: schedule_of h'
  | _ :: h' => schedule_of h'
  end.

(** one request per URL, one suspension between two consecutive requests *)
Fixpoint schedule (urls : list string) (delay : Z) : list event :=
  match urls with
  | [] => []
  | [url] => [EvGet url]
  | url :: rest => EvGet url :: EvSleep delay :: schedule rest delay
  end.

(** ** Sample pages, for evaluation *)

Definition details_table_page : list node :=
  [Element "html" []
     [Element "body" []
        [Element "span" [("id", "productTitle")] [Text "  Noise Cancelling Headphones  "];
         Element "table" []
           [Element "tr" []
              [Element "th" [] [Text " Best Sellers Rank "];
               Element "td" []
                 [Element "span" []
                    [Text "#1,234 in Electronics (";
                     Element "a" [] [Text "See Top 100 in Electronics"];
                     Text ") #56 in Headphones"]]]];
         Element "div" [("id", "detailBulletsWrapper_feature_div")]
           [Element "ul" []
              [Element "li" []
                 [Element "span" [] [Text "Best Sellers Rank:"];
                  Text " #, in Nothing"]]]]]].

Definition bullets_page : list node :=
  [Element "div" [("id", "detailBulletsWrapper_feature_div")]
     [Element "ul" []
        [Element "li" []
           [Element "span" [] [Text "Best Sellers Rank:"];
            Text " #7 in Books (See Top 100 in Books)"]]]].

Definition bare_page : list node :=
  [Element "html" [] [Element "body" [] [Text "Robot check"]]].

Definition sample_clock (h : history) : string := "2024-01-01 00:00:00".

(** a network that answers every URL with status 200 *)
Definition network_ok (url : string) : result http_response :=
  ret {| status_code := 200; body := "<html>" |}.

(** a network on which every request times out *)
Definition network_down (url : string) : result http_response :=
  raise (RequestException "Read timed out.").

(** a network on which the URLs that mention [missing] answer 404 *)
Definition network_mixed (url : string) : result http_response :=
  if contains "missing" url
  then ret {| status_code := 404; body := EmptyString |}
  else ret {| status_code := 200; body := "<html>" |}.

(** libraries over the sample pages *)
Definition table_library : Library :=
  tree_library network_ok (fun _ => details_table_page) sample_clock.

Definition down_library : Library :=
  tree_library network_down (fun _ => bare_page) sample_clock.

Definition mixed_library : Library :=
  tree_library network_mixed (fun _ => bare_page) sample_clock.

Definition table_soup : handle :=
  {| document := details_table_page; path := [] |}.

Definition sample_urls : list string :=
  ["https://www.amazon.com/dp/B08N5WRWNW";
   "https://www.amazon.com/dp/missing";
   "https://www.amazon.com/gp/product/B0BSHF7WHW"].

Definition commas_only_page : list node :=
  [Element "table" []
     [Element "tr" []
        [Element "th" [] [Text "Best Sellers Rank"];
         Element "td" [] [Text "#,,, in Kitchen (See Top 100)"]]]].

Definition commas_library : Library :=
  tree_library network_ok (fun _ => commas_only_page) sample_clock.

(** a rank of 4301 digits *)
Definition long_rank : string := string_of_list_ascii (repeat "1"%char 4301).

(** a page whose only rank has 310 digits *)
Definition huge_rank : string := string_of_list_ascii (repeat "9"%char 310).

Definition huge_rank_page : list node :=
  [Element "table" []
     [Element "tr" []
        [Element "th" [] [Text "Best Sellers Rank"];
         Element "td" [] [Text ("#" ++ huge_rank ++ " in Books (See Top 100)")]]]].

Definition huge_library : Library :=
  tree_library network_ok (fun _ => huge_rank_page) sample_clock.

(** ** Vocabulary of the properties *)

(** The estimate of line 164 can be computed. *)
Definition estimate_fits (total : nat) (delay : Z) : Prop :=
  true_divide_fits (Z.of_nat total * delay) 60 = true.

(** a length [time.sleep] accepts *)
Definition sleep_accepted (delay : Z) : Prop :=
  (0 <= delay <= sleep_max)%Z.

(** The digits of [ds], commas left out, are 4300 at most. *)
Definition within_int_limit (ds : string) : Prop :=
  (Z.of_nat (String.length (remove_char "," ds)) <= int_max_str_digits)%Z.


(** One record per URL, made by [get_product_bsr] for that URL. *)
Definition records_of {L : Library} (urls : list string)
           (results : list ProductRecord) : Prop :=
  Forall2 (fun u r => url r = u /\ exists h, r = fst (get_product_bsr u h))
          urls results.

(** A run of a class ends where [r] begins: at the end of the text, or at
    a character outside the class. *)
Definition stops (cls : ascii -> bool) (r : string) : bool :=
  match r with
  | EmptyString => true
  | String c _ => negb (cls c)
  end.

(** The rank of an entry is the number its [rank_formatted] denotes, a
    string of digits and commas with a digit in it. *)
Definition rank_parsed (e : RankingEntry) : Prop :=
  str_all is_digit_or_comma (rank_formatted e) = true /\
  str_any is_digit (rank_formatted e) = true /\
  rank e = int_digits 0 (remove_char "," (rank_formatted e)) /\
  (0 <= rank e)%Z.

(** The parts of a ranking text [#<digits-with-commas> in <category>]. *)

(** digits and commas, with a digit *)
Definition digits_with_commas (ds : string) : Prop :=
  str_all is_digit_or_comma ds = true /\ str_any is_digit ds = true.

(** whitespace, at least one character *)
Definition whitespace (ws : string) : Prop :=
  is_empty ws = false /\ str_all is_space ws = true.

(** a category: no opening parenthesis, not blank *)
Definition category_text (cat : string) : Prop :=
  str_all not_lparen cat = true /\ str_all is_space cat = false.

Definition no_hash (s : string) : Prop :=
  str_any (Ascii.eqb "#") s = false.

(** No match of the rank pattern begins in [pre] when [rest] follows it:
    the scan of [findall] goes through [pre] and arrives at [rest]. *)
Fixpoint unmatched (pre rest : string) : bool :=
  match pre with
  | EmptyString => true
  | String _ pre' =>
      match rank_pattern (pre ++ rest) with
      | Some _ => false
      | None => unmatched pre' rest
      end
  end.

(** What follows the category: the end of the text, and no further entry,
    or a parenthesis and a text [tail] that yields the entries [later]. *)
Definition closes (close : string) (later : list RankingEntry) : Prop :=
  (close = EmptyString /\ later = []) \/
  exists tail, close = ("(" ++ tail)%string /\ extract_rankings [] tail = inr later.

(** The entry the script builds for the groups [ds] and [cat]. *)
Definition entry_of (ds cat : string) : RankingEntry :=
  {| rank := int_digits 0 (remove_char "," ds);
     rank_formatted := ds;
     category := strip cat |}.

(** [url] is [pre], then [/dp/], then the ten characters [a] of [[A-Z0-9]],
    then [post]. *)
Definition dp_segment (url pre a post : string) : Prop :=
  url = (pre ++ "/dp/" ++ a ++ post)%string /\
  String.length a = 10%nat /\
  str_all is_upper_alnum a = true.

(** The same with exactly ten such characters: [post] does not go on with
    one more. *)
Definition dp_segment_of_exactly_ten (url pre a post : string) : Prop :=
  dp_segment url pre a post /\ stops is_upper_alnum post = true.

(** [/dp/([A-Z0-9]{10})] followed by no further character of the class, at
    the start of [s]. *)
Definition exactly_ten_pattern (s : string) : option string :=
  lit "/dp/" s (fun s1 =>
  exactly 10 is_upper_alnum s1 (fun m r =>
  if stops is_upper_alnum r then Some m else None)).

(** Is there a [/dp/] followed by exactly ten such characters in [s]? *)
Fixpoint has_segment_of_exactly_ten (s : string) : bool :=
  match exactly_ten_pattern s with
  | Some _ => true
  | None =>
      match s with
      | String _ s' => has_segment_of_exactly_ten s'
      | EmptyString => false
      end
  end.

(** ** Further vocabulary *)

(** [int] raises on the digits-and-commas text of a match: it has no digit,
    or more than 4300 of them. *)
Definition int_rejects (rank : string) : Prop :=
  str_any is_digit rank = false \/ ~ within_int_limit rank.

(** the two errors of [int] on digits and commas *)
Definition int_error (e : exn) : Prop :=
  e = ValueError "invalid literal for int() with base 10: ''" \/
  exists n : nat,
    (4300 < n)%nat /\
    e = ValueError
          ("Exceeds the limit (4300 digits) for integer string conversion: value has "
             ++ decimal n
             ++ " digits; use sys.set_int_max_str_digits() to increase the limit").

(** The shape of a match of the rank pattern at the start of [suf]: the
    two groups are [rank] and [cat], and [rest] is what follows the match. *)
Definition rank_occurrence (suf rank cat rest : string) : Prop :=
  exists ws1 ws2 close,
    suf = ("#" ++ rank ++ ws1 ++ "in" ++ ws2 ++ cat ++ close ++ rest)%string /\
    is_empty rank = false /\ str_all is_digit_or_comma rank = true /\
    whitespace ws1 /\ whitespace ws2 /\
    is_empty cat = false /\ str_all not_lparen cat = true /\
    ((exists w, close = (w ++ "(")%string /\ str_all is_space w = true) \/
     (close = EmptyString /\ at_dollar rest = true)).

(** how often [c] occurs in [s] *)
Fixpoint count_char (c : ascii) (s : string) : nat :=
  match s with
  | EmptyString => 0
  | String d s' => (if Ascii.eqb c d then 1 else 0) + count_char c s'
  end.

(** the files written, with what was written, in order *)
Fixpoint written (h : history) : list (string * file_content) :=
  match h with
  | [] => []
  | EvWrite filename content :: h' => (filename, content) :: written h'
  | _ :: h' => written h'
  end.

(** the records the statistics of [display_summary] are computed from, and
    their ranks *)
Definition ranked_successes (results : list ProductRecord) : list ProductRecord :=
  filter (fun r => String.eqb (status r) "success" && known_rank r) results.

Definition is_newline (c : ascii) : bool :=
  Ascii.eqb c LF || Ascii.eqb c CR.

(** a category as the script stores it: stripped, without parenthesis *)
Definition clean_category (e : RankingEntry) : Prop :=
  strip (category e) = category e /\
  str_all not_lparen (category e) = true.

(** the rank of an entry is an [int] that can be written in decimal *)
Definition rank_fits (e : RankingEntry) : Prop :=
  int_str_fits (rank e) = true.

(** The average of line 225 can be computed: there is no rank to average,
    or the quotient is in the range of [float]. *)
Definition average_fits (results : list ProductRecord) : bool :=
  let ranks := map rank_of (ranked_successes results) in
  is_nil ranks ||
  true_divide_fits (fold_right Z.add 0%Z ranks) (Z.of_nat (List.length ranks)).

(** the six lines every summary starts with *)
Definition summary_head (results : list ProductRecord) : list event :=
  [EvPrint (Line (nl ++ rule)); EvPrint (Line "SUMMARY");
   EvPrint (Line rule); EvPrint (MsgTotal (List.length results));
   EvPrint (MsgSuccessful
              (List.length (filter (fun r => String.eqb (status r) "success") results)));
   EvPrint (MsgFailed
              (List.length (filter (fun r => negb (String.eqb (status r) "success"))
                                   results)))].

(** [e] is built from a match of the rank pattern somewhere in [text] *)
Definition entry_from (text : string) (e : RankingEntry) : Prop :=
  exists pre suf cat rest,
    text = (pre ++ suf)%string /\
    rank_occurrence suf (rank_formatted e) cat rest /\
    category e = strip cat /\
    rank e = int_digits 0 (remove_char "," (rank_formatted e)).

(** A rank in a text of several ranks: what precedes its [#], its digits
    and commas, the whitespace around [in], and its category, which runs
    up to a parenthesis. *)
Record occurrence : Type := {
  o_pre : string;
  o_rank : string;
  o_ws1 : string;
  o_ws2 : string;
  o_cat : string
}.

Definition well_formed (o : occurrence) : Prop :=
  digits_with_commas (o_rank o) /\ within_int_limit (o_rank o) /\
  whitespace (o_ws1 o) /\ whitespace (o_ws2 o) /\ category_text (o_cat o).

(** the text of the ranks [os], each closed by a parenthesis, then [tail] *)
Fixpoint ranks_text (os : list occurrence) (tail : string) : string :=
  match os with
  | [] => tail
  | o :: os' =>
      (o_pre o ++ "#" ++ o_rank o ++ o_ws1 o ++ "in" ++ o_ws2 o ++ o_cat o
         ++ "(" ++ ranks_text os' tail)%string
  end.

(** The scan of [findall] reaches every rank of [os]: no match of the
    pattern begins in what precedes its [#]. *)
Fixpoint reached (os : list occurrence) (tail : string) : Prop :=
  match os with
  | [] => True
  | o :: os' =>
      unmatched (o_pre o)
        ("#" ++ o_rank o ++ o_ws1 o ++ "in" ++ o_ws2 o ++ o_cat o
           ++ "(" ++ ranks_text os' tail)%string = true /\
      reached os' tail
  end.

(** further samples *)
Definition table_record : ProductRecord :=
  fst (@get_product_bsr table_library "https://www.amazon.com/dp/B08N5WRWNW" []).

Definition bullets_library : Library :=
  tree_library network_ok (fun _ => bullets_page) sample_clock.

Definition sample_results : list ProductRecord :=
  [table_record;
   fst (@get_product_bsr bullets_library "https://www.amazon.com/dp/B0BSHF7WHW" []);
   fst (@get_product_bsr down_library "https://www.amazon.com/dp/B000000000" [])].

Definition sample_file : string :=
  ("# products" ++ nl ++ "  https://www.amazon.com/dp/B08N5WRWNW  "
     ++ String CR nl ++ nl ++ "https://www.amazon.com/dp/missing")%string.

Definition sample_occurrences : list occurrence :=
  [{| o_pre := "Item #A1, rank "; o_rank := "1,234"; o_ws1 := " "; o_ws2 := " ";
      o_cat := "Electronics " |};
   {| o_pre := "See Top 100 in Electronics) "; o_rank := "56"; o_ws1 := " ";
      o_ws2 := " "; o_cat := "Headphones " |}].

(** a list item with two spans that name the rank *)
Definition two_spans_page : list node :=
  [Element "div" [("id", "detailBulletsWrapper_feature_div")]
     [Element "ul" []
        [Element "li" []
           [Element "span" [] [Text "Best Sellers Rank:"];
            Text " #7 in Books (";
            Element "span" [] [Text "See the Best Sellers Rank list"];
            Text ")"]]]].

Definition two_spans_library : Library :=
  tree_library network_ok (fun _ => two_spans_page) sample_clock.

(** * Properties *)

(** ** The [result] monad *)

Lemma bind_inr {A B : Type} (m : result A) (f : A -> result B) (b : B) :
  bind m f = inr b -> exists a, m = inr a /\ f a = inr b.
Proof.
  destruct m as [e | a]; simpl; intros H; [discriminate | eauto].
Qed.

Lemma bind_inl {A B : Type} (m : result A) (f : A -> result B) (e : exn) :
  bind m f = inl e -> m = inl e \/ exists a, m = inr a /\ f a = inl e.
Proof.
  destruct m as [e' | a]; simpl; intros H; [left; congruence | right; eauto].
Qed.

Ltac bind_inv H :=
  let a := fresh "a" in
  let E := fresh "E" in
  apply bind_inr in H; destruct H as (a & E & H).

(** ** Records of [get_product_bsr] *)

Section RecordFacts.
Context {L : Library}.

(** What a record that leaves the [try] block looks like. *)
Lemma try_block_inr (url0 : string) (h : history) (r : ProductRecord) :
  try_block url0 h = inr r ->
  url r = url0 /\
  asin r = extract_asin url0 /\
  status r = "success" /\
  error r = None /\
  timestamp r = now h /\
  primary_rank r = option_map rank (hd_error (all_rankings r)) /\
  primary_rank_formatted r =
    match hd_error (all_rankings r) with
    | Some e => rank_formatted e
    | None => "Not found"
    end /\
  primary_category r =
    match hd_error (all_rankings r) with
    | Some e => category e
    | None => "N/A"
    end /\
  exists soup, get_rankings soup = inr (all_rankings r).
Proof.
  unfold try_block. intros H.
  bind_inv H. bind_inv H. bind_inv H. bind_inv H. bind_inv H. bind_inv H.
  unfold ret in H. injection H as <-. cbn.
  repeat split; try reflexivity. eauto.
Qed.

(** The two shapes of the result of [get_product_bsr]. *)
Lemma get_product_bsr_cases (url0 : string) (h : history) :
  let h1 := h ++ [EvGet url0] in
  snd (get_product_bsr url0 h) = h1 /\
  ((exists r, try_block url0 h1 = inr r /\ fst (get_product_bsr url0 h) = r) \/
   (exists e, try_block url0 h1 = inl e /\
              fst (get_product_bsr url0 h) =
                error_record url0 h1
                  match e with
                  | RequestException msg => msg
                  | _ => ("Parsing error: " ++ str_exn e)%string
                  end)).
Proof.
  unfold get_product_bsr. cbv zeta.
  destruct (try_block url0 (h ++ [EvGet url0])) as [e | r] eqn:E.
  - destruct e; cbn; split; try reflexivity; right; eexists; split; reflexivity.
  - cbn; split; [reflexivity | left; eauto].
Qed.

Lemma get_product_bsr_url (url0 : string) (h : history) :
  url (fst (get_product_bsr url0 h)) = url0.
Proof.
  destruct (get_product_bsr_cases url0 h) as (_ & [(r & E & ->) | (e & E & ->)]).
  - apply try_block_inr in E. tauto.
  - reflexivity.
Qed.

Lemma get_product_bsr_history (url0 : string) (h : history) :
  snd (get_product_bsr url0 h) = h ++ [EvGet url0].
Proof. apply get_product_bsr_cases. Qed.

(** C4.  When Method 1 (the details table) yields at least one entry, the
    rankings of the page are exactly the entries of Method 1: Methods 2 and
    3 stand under [if not rankings] and are not run, whatever they would
    do, raise included. *)
Theorem method_1_short_circuits (soup : Tag) (e : RankingEntry) (l : list RankingEntry) :
  method_1 soup [] = inr (e :: l) ->
  get_rankings soup = inr (e :: l).
Proof.
  intros H. unfold get_rankings. rewrite H. reflexivity.
Qed.

(** C5.  In a record with status [success] the primary fields mirror the
    first entry of [all_rankings]; when there is no entry the primary rank
    is absent and the primary category is [N/A]. *)
Theorem primary_mirrors_first_ranking (url0 : string) (h : history) :
  let r := fst (get_product_bsr url0 h) in
  status r = "success" ->
  match all_rankings r with
  | first :: _ =>
      primary_rank r = Some (rank first) /\
      primary_rank_formatted r = rank_formatted first /\
      primary_category r = category first
  | [] =>
      primary_rank r = None /\
      primary_category r = "N/A"
  end.
Proof.
  cbv zeta.
  destruct (get_product_bsr_cases url0 h) as (_ & [(r & E & ->) | (e & E & ->)]).
  - intros _. apply try_block_inr in E.
    destruct E as (_ & _ & _ & _ & _ & Hr & Hf & Hc & _).
    rewrite Hr, Hf, Hc. destruct (all_rankings r); cbn; auto.
  - cbn. discriminate.
Qed.

(** C6.  The status is [error] exactly when the [try] block raised; the
    record then has no ranking, placeholders in the primary fields and the
    cause under [error], after the marker [Parsing error: ] unless the
    exception is a request exception; and the key [error] exists in error
    records only. *)
Theorem error_status_iff_raised (url0 : string) (h : history) :
  let r := fst (get_product_bsr url0 h) in
  let h1 := h ++ [EvGet url0] in
  (status r = "error" <-> exists e, try_block url0 h1 = inl e) /\
  (forall e, try_block url0 h1 = inl e ->
     primary_rank r = None /\
     primary_rank_formatted r = "Error" /\
     primary_category r = "N/A" /\
     all_rankings r = [] /\
     error r = Some match e with
                    | RequestException msg => msg
                    | _ => ("Parsing error: " ++ str_exn e)%string
                    end) /\
  (error r <> None <-> status r = "error") /\
  (status r = "error" \/ status r = "success").
Proof.
  cbv zeta.
  destruct (get_product_bsr_cases url0 h) as (_ & [(r & E & ->) | (e & E & ->)]).
  - pose proof (try_block_inr _ _ _ E) as (_ & _ & Hs & He & _).
    rewrite E, Hs, He. repeat split; try discriminate; try congruence; auto.
    intros (e & He'). discriminate.
  - rewrite E. cbn. split; [split; [eauto | reflexivity] | ].
    split; [intros e' He'; injection He' as <-; repeat split; reflexivity | ].
    split; [split; [reflexivity | discriminate] | left; reflexivity].
Qed.

(** C10.  An error record has the identifier [N/A] and the title [Error],
    whatever the URL: the identifier is computed inside the [try] block,
    after the request, and the [except] clauses do not compute it again. *)
Theorem error_record_has_no_asin (url0 : string) (h : history) :
  let r := fst (get_product_bsr url0 h) in
  status r = "error" ->
  asin r = "N/A" /\ title r = "Error".
Proof.
  cbv zeta.
  destruct (get_product_bsr_cases url0 h) as (_ & [(r & E & ->) | (e & E & ->)]).
  - apply try_block_inr in E. destruct E as (_ & _ & Hs & _).
    rewrite Hs. discriminate.
  - intros _. split; reflexivity.
Qed.

End RecordFacts.

(** ** Histories *)

Lemma schedule_of_app (h1 h2 : history) :
  schedule_of (h1 ++ h2) = schedule_of h1 ++ schedule_of h2.
Proof.
  induction h1 as [| [m | u | d | f c] h1 IH]; cbn; rewrite ?IH; reflexivity.
Qed.

Lemma requests_schedule_of (h : history) :
  requests (schedule_of h) = requests h.
Proof.
  induction h as [| [m | u | d | f c] h IH]; cbn; rewrite ?IH; reflexivity.
Qed.

Lemma suspensions_schedule_of (h : history) :
  suspensions (schedule_of h) = suspensions h.
Proof.
  induction h as [| [m | u | d | f c] h IH]; cbn; rewrite ?IH; reflexivity.
Qed.

Lemma requests_schedule (urls : list string) (delay : Z) :
  requests (schedule urls delay) = urls.
Proof.
  induction urls as [| u [| v rest] IH]; cbn in *; try reflexivity.
  now rewrite IH.
Qed.



(** ** The batch runner *)

Section BatchFacts.
Context {L : Library}.

Lemma time_sleep_ok (delay : Z) (h : history) :
  sleep_accepted delay -> time_sleep delay h = (inr tt, h ++ [EvSleep delay]).
Proof.
  intros [Hlo Hhi]. unfold time_sleep.
  destruct (Z.ltb_spec delay (- sleep_max)); [unfold sleep_max in *; lia |].
  destruct (Z.ltb_spec sleep_max delay); [lia |].
  destruct (Z.ltb_spec delay 0); [lia | reflexivity].
Qed.

(** The loop runs to its end: it adds one record per URL, in order, and
    requests every URL, with one suspension between two requests. *)
Lemma process_loop_runs (delay : Z) (total : nat) :
  forall (urls : list string) (i : nat) (results : list ProductRecord) (h : history),
    (List.length urls <= 1)%nat \/ sleep_accepted delay ->
    (i + List.length urls = S total)%nat ->
    exists rs evs,
      process_loop delay total i urls results h = (inr (results ++ rs), h ++ evs) /\
      records_of urls rs /\
      schedule_of evs = schedule urls delay.
Proof.
  induction urls as [| u rest IH]; intros i results h Hd Hi.
  - exists [], []. cbn. rewrite !app_nil_r. repeat split. constructor.
  - cbn [process_loop].
    destruct (get_product_bsr u (h ++ [EvPrint (MsgProcessing i total (take 60 u))]))
      as [result h2] eqn:E.
    assert (Hh : h2 = (h ++ [EvPrint (MsgProcessing i total (take 60 u))]) ++ [EvGet u]).
    { rewrite <- get_product_bsr_history. now rewrite E. }
    assert (Hr : url result = u /\ exists h', result = fst (get_product_bsr u h')).
    { split.
      - replace result with (fst (get_product_bsr u (h ++ [EvPrint (MsgProcessing i total (take 60 u))])))
          by now rewrite E.
        apply get_product_bsr_url.
      - eexists. now rewrite E. }
    set (m := EvPrint _). subst h2.
    destruct rest as [| v rest'].
    + cbn [List.length] in Hi.
      destruct (Nat.ltb_spec i total) as [Hlt | Hge]; [lia |].
      exists [result], [EvPrint (MsgProcessing i total (take 60 u)); EvGet u; m].
      cbn [process_loop]. rewrite <- !app_assoc. cbn [app schedule_of schedule].
      repeat split. repeat constructor; tauto.
    + cbn [List.length] in Hi.
      destruct (Nat.ltb_spec i total) as [Hlt | Hge]; [| lia].
      assert (Hs : sleep_accepted delay).
      { destruct Hd as [Hd | Hd]; [cbn [List.length] in Hd; lia | exact Hd]. }
      rewrite time_sleep_ok by exact Hs.
      destruct (IH (S i) (results ++ [result])
                   (((h ++ [EvPrint (MsgProcessing i total (take 60 u))]) ++ [EvGet u])
                      ++ [m] ++ [EvSleep delay]))
        as (rs & evs & Hrun & Hrec & Hsched).
      { now right. }
      { cbn [List.length]. lia. }
      exists (result :: rs),
        ([EvPrint (MsgProcessing i total (take 60 u)); EvGet u; m; EvSleep delay] ++ evs).
      split; [| split].
      * rewrite <- ?app_assoc in *. cbn [app] in *. rewrite Hrun. reflexivity.
      * constructor; assumption.
      * rewrite schedule_of_app, Hsched. subst m. reflexivity.
Qed.


Lemma process_products_runs (urls : list string) (delay : Z) (h : history) :
  estimate_fits (List.length urls) delay ->
  (List.length urls <= 1)%nat \/ sleep_accepted delay ->
  exists results evs,
    process_products urls delay h = (inr results, h ++ evs) /\
    records_of urls results /\
    schedule_of evs = schedule urls delay.
Proof.
  intros He Hd. unfold process_products. rewrite He.
  destruct (process_loop_runs delay (List.length urls) urls 1 []
              ((h ++ [EvPrint (MsgStarting (List.length urls))])
                 ++ [EvPrint (MsgEstimated (List.length urls) delay)]) Hd)
    as (rs & evs & Hrun & Hrec & Hsched); [reflexivity |].
  exists rs, ([EvPrint (MsgStarting (List.length urls));
               EvPrint (MsgEstimated (List.length urls) delay)] ++ evs).
  split; [| split].
  - rewrite Hrun. now rewrite <- !app_assoc.
  - exact Hrec.
  - rewrite schedule_of_app. exact Hsched.
Qed.



End BatchFacts.

(** ** The main program *)

Lemma startswith_nonempty (p s : string) :
  p <> EmptyString -> startswith p s = true -> is_empty s = false.
Proof.
  destruct p as [| a p]; [congruence |].
  destruct s as [| b s]; cbn; [discriminate | reflexivity].
Qed.

(** X16.  No URL is loaded exactly when no line of the file, stripped,
    starts with [http]. *)
Lemma load_urls_nil (file : string) :
  load_urls file = [] <->
  forall line, In line (lines (universal_newlines file)) ->
               startswith "http" (strip line) = false.
Proof.
  unfold load_urls.
  induction (lines (universal_newlines file)) as [| l ls IH]; cbn [filter map].
  - split; [intros _ line [] | reflexivity].
  - destruct (startswith "http" (strip l)) eqn:E.
    + rewrite (startswith_nonempty "http" (strip l)) by (discriminate || exact E).
      cbn [negb andb map]. split; [discriminate |].
      intros H. specialize (H l (or_introl eq_refl)). congruence.
    + rewrite andb_false_r. rewrite IH. split.
      * intros H line [<- | Hin]; auto.
      * intros H line Hin. apply H. now right.
Qed.

Section MainFacts.
Context {L : Library}.

(** C8.  When the file of URLs is missing, or yields no valid URL, the run
    ends with exit status 1 after console output only: no request, no
    suspension, no file written. *)
Theorem main_without_urls_exits (amazon_urls_txt : option string) (h : history) :
  (amazon_urls_txt = None \/
   exists file, amazon_urls_txt = Some file /\ load_urls file = []) ->
  exists evs,
    main amazon_urls_txt h = (1%Z, h ++ evs) /\
    Forall (fun e => exists m, e = EvPrint m) evs /\
    requests evs = [] /\
    writes evs = [] /\
    suspensions evs = [].
Proof.
  intros [-> | (file & -> & Hnil)]; unfold main; [| rewrite Hnil; cbn [is_nil]];
    eexists; (split; [reflexivity |]);
    (split; [repeat constructor; eexists; reflexivity | repeat split]).
Qed.

End MainFacts.

(** ** Strings *)

Section StringFacts.
Local Open Scope string_scope.

Lemma str_app_nil_r (s : string) : s ++ EmptyString = s.
Proof. induction s as [| c s IH]; cbn; [reflexivity | now rewrite IH]. Qed.

Lemma str_app_assoc (a b c : string) : (a ++ b) ++ c = a ++ b ++ c.
Proof. induction a as [| x a IH]; cbn; [reflexivity | now rewrite IH]. Qed.

Lemma str_length_app (a b : string) :
  String.length (a ++ b) = (String.length a + String.length b)%nat.
Proof. induction a as [| x a IH]; cbn; [reflexivity | now rewrite IH]. Qed.

Lemma str_all_app (p : ascii -> bool) (a b : string) :
  str_all p (a ++ b) = str_all p a && str_all p b.
Proof.
  induction a as [| x a IH]; cbn; [reflexivity |].
  rewrite IH. now rewrite andb_assoc.
Qed.

Lemma str_any_app (p : ascii -> bool) (a b : string) :
  str_any p (a ++ b) = str_any p a || str_any p b.
Proof.
  induction a as [| x a IH]; cbn; [reflexivity |].
  rewrite IH. now rewrite orb_assoc.
Qed.

Lemma is_empty_true (s : string) : is_empty s = true -> s = EmptyString.
Proof. destruct s; [reflexivity | discriminate]. Qed.

(** *** Stripping *)

Lemma rstrip_empty (s : string) : is_empty (rstrip s) = str_all is_space s.
Proof.
  induction s as [| c s IH]; cbn; [reflexivity |].
  rewrite IH. destruct (is_space c), (str_all is_space s); reflexivity.
Qed.

Lemma rstrip_cons (c : ascii) (s : string) :
  str_all is_space (String c s) = false ->
  rstrip (String c s) = String c (rstrip s).
Proof.
  cbn. rewrite rstrip_empty. intros ->. reflexivity.
Qed.

Lemma rstrip_all_space (s : string) :
  str_all is_space s = true -> rstrip s = EmptyString.
Proof.
  intros H. apply is_empty_true. now rewrite rstrip_empty.
Qed.

Lemma rstrip_idempotent (s : string) : rstrip (rstrip s) = rstrip s.
Proof.
  induction s as [| c s IH]; [reflexivity |].
  destruct (str_all is_space (String c s)) eqn:E.
  - now rewrite (rstrip_all_space _ E).
  - rewrite (rstrip_cons _ _ E).
    assert (E' : str_all is_space (String c (rstrip s)) = false).
    { cbn in *. rewrite <- rstrip_empty in *. now rewrite IH. }
    rewrite (rstrip_cons _ _ E'). now rewrite IH.
Qed.

Lemma lstrip_all_space_app (w s : string) :
  str_all is_space w = true -> lstrip (w ++ s) = lstrip s.
Proof.
  induction w as [| c w IH]; cbn; [reflexivity |].
  destruct (is_space c); [exact IH | discriminate].
Qed.

Lemma lstrip_head (c : ascii) (s : string) :
  is_space c = false -> lstrip (String c s) = String c s.
Proof. cbn. now intros ->. Qed.

Lemma strip_all_space_app (w s : string) :
  str_all is_space w = true -> strip (w ++ s) = strip s.
Proof. intros H. unfold strip. now rewrite lstrip_all_space_app. Qed.

(** *** Decimal digits *)

Lemma is_digit_value (c : ascii) :
  is_digit c = true -> (0 <= digit_value c <= 9)%Z.
Proof.
  unfold is_digit, digit_value. intros H.
  apply andb_true_iff in H as [H1 H2].
  apply N.leb_le in H1, H2. lia.
Qed.

Lemma int_digits_nonneg (s : string) (acc : Z) :
  str_all is_digit s = true -> (0 <= acc)%Z -> (0 <= int_digits acc s)%Z.
Proof.
  revert acc. induction s as [| c s IH]; cbn [str_all int_digits];
    intros acc H Hacc; [exact Hacc |].
  apply andb_true_iff in H as [Hc Hs]. apply IH; [exact Hs |].
  pose proof (is_digit_value c Hc). lia.
Qed.

Lemma remove_comma_digits (s : string) :
  str_all is_digit (remove_char "," s) = true ->
  str_all is_digit_or_comma s = true.
Proof.
  induction s as [| c s IH]; cbn; [reflexivity |].
  unfold is_digit_or_comma. destruct (Ascii.eqb c ",") eqn:E.
  - intros H. rewrite orb_true_r. cbn. auto.
  - cbn. intros H. apply andb_true_iff in H as [-> Hs]. cbn. auto.
Qed.

Lemma remove_comma_nonempty (s : string) :
  is_empty (remove_char "," s) = false -> str_any is_digit s = true
  \/ str_all is_digit (remove_char "," s) = false.
Proof.
  induction s as [| c s IH]; cbn; [discriminate |].
  destruct (Ascii.eqb c ",") eqn:E.
  - intros H. destruct (IH H) as [-> | ->]; [left; apply orb_true_r | now right].
  - cbn. intros _. destruct (is_digit c); [now left | now right].
Qed.

Lemma py_int_inr (s : string) (n : Z) :
  py_int (remove_char "," s) = inr n ->
  n = int_digits 0 (remove_char "," s) /\
  (0 <= n)%Z /\
  str_all is_digit_or_comma s = true /\
  str_any is_digit s = true.
Proof.
  unfold py_int.
  destruct (is_empty (remove_char "," s)) eqn:E1; [discriminate |].
  destruct (str_all is_digit (remove_char "," s)) eqn:E2; [| discriminate].
  cbn [orb negb].
  destruct (int_max_str_digits <? _)%Z; [discriminate |].
  intros H. injection H as <-.
  repeat split.
  - now apply int_digits_nonneg.
  - now apply remove_comma_digits.
  - destruct (remove_comma_nonempty s E1); congruence.
Qed.

(** [int] only gives numbers of 4300 digits at most. *)
Lemma py_int_within_limit (s : string) (n : Z) :
  py_int (remove_char "," s) = inr n -> within_int_limit s.
Proof.
  unfold py_int, within_int_limit.
  destruct (is_empty _ || negb _); [discriminate |].
  destruct (Z.ltb_spec int_max_str_digits
              (Z.of_nat (String.length (remove_char "," s)))); [discriminate |].
  intros _. assumption.
Qed.

(** Digits and commas with a digit: [int] gets a literal. *)
Lemma remove_commas_literal (s : string) :
  str_all is_digit_or_comma s = true ->
  str_any is_digit s = true ->
  is_empty (remove_char "," s) || negb (str_all is_digit (remove_char "," s)) = false.
Proof.
  intros Hall Hany.
  assert (H1 : str_all is_digit (remove_char "," s) = true).
  { clear Hany. induction s as [| c s IH]; [reflexivity |].
    cbn in *. apply andb_true_iff in Hall as [Hc Hs].
    unfold is_digit_or_comma in Hc.
    destruct (Ascii.eqb c ","); cbn; [auto |].
    rewrite orb_false_r in Hc. rewrite Hc. cbn. auto. }
  assert (H2 : is_empty (remove_char "," s) = false).
  { clear Hall H1. induction s as [| c s IH]; [discriminate |].
    cbn in *. destruct (Ascii.eqb c ",") eqn:E.
    - apply Ascii.eqb_eq in E. subst c. cbn in Hany. auto.
    - reflexivity. }
  rewrite H1, H2. reflexivity.
Qed.

Lemma py_int_digits (s : string) :
  str_all is_digit_or_comma s = true ->
  str_any is_digit s = true ->
  within_int_limit s ->
  py_int (remove_char "," s) = inr (int_digits 0 (remove_char "," s)).
Proof.
  intros Hall Hany Hlim. unfold py_int.
  rewrite (remove_commas_literal s Hall Hany).
  replace (int_max_str_digits <? Z.of_nat (String.length (remove_char "," s)))%Z
    with false
    by (symmetry; apply Z.ltb_ge; exact Hlim).
  reflexivity.
Qed.

Lemma py_int_too_long (s : string) :
  str_all is_digit_or_comma s = true ->
  str_any is_digit s = true ->
  ~ within_int_limit s ->
  py_int (remove_char "," s)
  = inl (ValueError
           ("Exceeds the limit (4300 digits) for integer string conversion: value has "
              ++ decimal (String.length (remove_char "," s))
              ++ " digits; use sys.set_int_max_str_digits() to increase the limit")).
Proof.
  intros Hall Hany Hlim. unfold py_int.
  rewrite (remove_commas_literal s Hall Hany).
  replace (int_max_str_digits <? Z.of_nat (String.length (remove_char "," s)))%Z
    with true
    by (symmetry; apply Z.ltb_lt; unfold within_int_limit in Hlim; lia).
  reflexivity.
Qed.

End StringFacts.

(** ** Ranking entries *)

Lemma append_entries_inr (ms : list (string * string)) :
  forall rankings l,
    append_entries rankings ms = inr l ->
    exists new, l = rankings ++ new /\ Forall rank_parsed new /\
                List.length new = List.length ms.
Proof.
  induction ms as [| [r c] ms IH]; intros rankings l H.
  - cbn in H. injection H as <-. exists []. rewrite app_nil_r. repeat split. constructor.
  - cbn [append_entries] in H. bind_inv H.
    apply IH in H as (new & -> & Hnew & Hlen).
    exists ({| rank := a; rank_formatted := r; category := strip c |} :: new).
    rewrite <- app_assoc. repeat split.
    + constructor; [| exact Hnew].
      apply py_int_inr in E. unfold rank_parsed. cbn. tauto.
    + cbn. now rewrite Hlen.
Qed.

Lemma extract_rankings_parsed (rankings : list RankingEntry) (rank_text : string)
      (l : list RankingEntry) :
  extract_rankings rankings rank_text = inr l ->
  Forall rank_parsed rankings -> Forall rank_parsed l.
Proof.
  intros H Hr. apply append_entries_inr in H as (new & -> & Hnew & _).
  apply Forall_app. now split.
Qed.

Section RankingFacts.
Context {L : Library}.

Lemma method_1_parsed (soup : Tag) (rankings l : list RankingEntry) :
  method_1 soup rankings = inr l ->
  Forall rank_parsed rankings -> Forall rank_parsed l.
Proof.
  unfold method_1. intros H Hr. bind_inv H.
  destruct a as [rank_section |]; [| injection H as <-; exact Hr].
  bind_inv H. destruct a as [rank_data |]; [| injection H as <-; exact Hr].
  bind_inv H. eapply extract_rankings_parsed; eauto.
Qed.

Lemma spans_loop_parsed (spans : list Tag) :
  forall rankings l,
    spans_loop spans rankings = inr l ->
    Forall rank_parsed rankings -> Forall rank_parsed l.
Proof.
  induction spans as [| span rest IH]; intros rankings l H Hr.
  - injection H as <-. exact Hr.
  - cbn [spans_loop] in H. bind_inv H. bind_inv H. bind_inv H.
    apply IH in H; [exact H |].
    destruct a0 as [parent |]; [| injection E1 as <-; exact Hr].
    bind_inv E1. eapply extract_rankings_parsed; eauto.
Qed.

Lemma method_2_parsed (soup : Tag) (rankings l : list RankingEntry) :
  method_2 soup rankings = inr l ->
  Forall rank_parsed rankings -> Forall rank_parsed l.
Proof.
  unfold method_2. intros H Hr. bind_inv H.
  destruct a as [detail_bullets |]; [| injection H as <-; exact Hr].
  bind_inv H. destruct a as [bsr_li |].
  - bind_inv H. eapply extract_rankings_parsed; eauto.
  - bind_inv H. eapply spans_loop_parsed; eauto.
Qed.

Lemma method_3_parsed (soup : Tag) (rankings l : list RankingEntry) :
  method_3 soup rankings = inr l ->
  Forall rank_parsed rankings -> Forall rank_parsed l.
Proof.
  unfold method_3. intros H Hr. bind_inv H.
  destruct a as [detail_section |]; [| injection H as <-; exact Hr].
  bind_inv H.
  destruct (contains "Best Sellers Rank" a); [| injection H as <-; exact Hr].
  eapply extract_rankings_parsed; eauto.
Qed.

Lemma get_rankings_parsed (soup : Tag) (l : list RankingEntry) :
  get_rankings soup = inr l -> Forall rank_parsed l.
Proof.
  unfold get_rankings. intros H.
  bind_inv H. apply method_1_parsed in E; [| constructor].
  bind_inv H.
  assert (H0 : Forall rank_parsed a0).
  { destruct (is_nil a); [eapply method_2_parsed; eauto | injection E0 as <-; exact E]. }
  bind_inv H. injection H as <-.
  destruct (is_nil a0); [eapply method_3_parsed; eauto | injection E1 as <-; exact H0].
Qed.

(** C3, as the code has it.  The rank of every entry of every record is
    the number its [rank_formatted] denotes once the commas are removed:
    [rank_formatted] is made of digits and commas, with a digit, and the
    rank is not negative.  It may be zero. *)
Theorem rank_is_parsed_natural (url0 : string) (h : history) (e : RankingEntry) :
  In e (all_rankings (fst (get_product_bsr url0 h))) ->
  rank_parsed e.
Proof.
  destruct (get_product_bsr_cases url0 h) as (_ & [(r & E & ->) | (x & E & ->)]).
  - apply try_block_inr in E.
    destruct E as (_ & _ & _ & _ & _ & _ & _ & _ & soup & Hs).
    apply get_rankings_parsed in Hs. rewrite Forall_forall in Hs. apply Hs.
  - intros [].
Qed.

End RankingFacts.

(** C3, as stated, fails: the text [#0 in Books] yields an entry of rank
    zero, which is not positive. *)
Lemma rank_zero_not_positive :
  extract_rankings [] "#0 in Books"
  = inr [{| rank := 0; rank_formatted := "0"; category := "Books" |}] /\
  ~ (0 < rank {| rank := 0; rank_formatted := "0"; category := "Books" |})%Z.
Proof.
  split; [vm_compute; reflexivity | cbn; lia].
Qed.

(** ** The matcher *)

Section MatcherFacts.
Local Open Scope string_scope.
Context {R : Type}.

Lemma lit_app (p s : string) (k : string -> option R) :
  lit p (p ++ s) k = k s.
Proof.
  induction p as [| a p IH]; cbn; [reflexivity |].
  now rewrite Ascii.eqb_refl.
Qed.

Lemma lit_inv (p s : string) (k : string -> option R) (x : R) :
  lit p s k = Some x -> exists r, s = p ++ r /\ k r = Some x.
Proof.
  revert s. induction p as [| a p IH]; cbn; intros s H; [eauto |].
  destruct s as [| b s]; [discriminate |].
  destruct (Ascii.eqb a b) eqn:E; [| discriminate].
  apply Ascii.eqb_eq in E. subst b.
  apply IH in H as (r & -> & H). eauto.
Qed.

(** A greedy quantifier whose continuation accepts the whole run takes the
    whole run. *)
Lemma star_greedy_run (cls : ascii -> bool) (m r : string)
      (k : string -> string -> option R) (x : R) :
  str_all cls m = true -> stops cls r = true -> k m r = Some x ->
  star_greedy cls (m ++ r) k = Some x.
Proof.
  revert k. induction m as [| c m IH]; intros k Hm Hr Hk.
  - cbn. destruct r as [| c r]; cbn; [exact Hk |].
    cbn in Hr. apply negb_true_iff in Hr. now rewrite Hr.
  - cbn in Hm. apply andb_true_iff in Hm as [Hc Hm].
    cbn. rewrite Hc. now rewrite (IH (fun m0 r0 => k (String c m0) r0)).
Qed.

Lemma plus_greedy_run (cls : ascii -> bool) (m r : string)
      (k : string -> string -> option R) (x : R) :
  is_empty m = false ->
  str_all cls m = true -> stops cls r = true -> k m r = Some x ->
  plus_greedy cls (m ++ r) k = Some x.
Proof.
  destruct m as [| c m]; [discriminate |]. intros _ Hm Hr Hk.
  cbn in Hm. apply andb_true_iff in Hm as [Hc Hm].
  cbn. rewrite Hc.
  now apply (star_greedy_run cls m r (fun m0 r0 => k (String c m0) r0)).
Qed.

(** [c{n}] takes exactly [n] characters of the class, or fails. *)
Lemma exactly_inv (n : nat) (cls : ascii -> bool) :
  forall (s : string) (k : string -> string -> option R) (x : R),
    exactly n cls s k = Some x ->
    exists m r, s = m ++ r /\ String.length m = n /\ str_all cls m = true /\
                k m r = Some x.
Proof.
  induction n as [| n IH]; cbn; intros s k x H.
  - exists EmptyString, s. auto.
  - destruct s as [| c s]; [discriminate |].
    destruct (cls c) eqn:Hc; [| discriminate].
    apply IH in H as (m & r & -> & Hlen & Hall & Hk).
    exists (String c m), r. cbn. rewrite Hc, Hlen, Hall. auto.
Qed.

Lemma exactly_app (cls : ascii -> bool) (m r : string)
      (k : string -> string -> option R) :
  str_all cls m = true ->
  exactly (String.length m) cls (m ++ r) k = k m r.
Proof.
  revert k. induction m as [| c m IH]; intros k Hm; [reflexivity |].
  cbn in Hm. apply andb_true_iff in Hm as [Hc Hm].
  cbn. rewrite Hc. now rewrite (IH (fun m0 r0 => k (String c m0) r0)).
Qed.

End MatcherFacts.

(** *** Character classes *)

Ltac by_cases_on_char c :=
  destruct c as [[] [] [] [] [] [] [] []]; vm_compute; congruence.

Lemma space_not_digit_or_comma (c : ascii) :
  is_space c = true -> is_digit_or_comma c = false.
Proof. by_cases_on_char c. Qed.

Lemma space_not_lparen (c : ascii) :
  is_space c = true -> Ascii.eqb "(" c = false.
Proof. by_cases_on_char c. Qed.

Lemma space_not_hash (c : ascii) :
  is_space c = true -> Ascii.eqb "#" c = false.
Proof. by_cases_on_char c. Qed.

Lemma at_dollar_all_space (s : string) :
  at_dollar s = true -> str_all is_space s = true.
Proof.
  destruct s as [| c [| d s]]; cbn; try discriminate; [reflexivity |].
  intros H. apply Ascii.eqb_eq in H. subst c. reflexivity.
Qed.

(** *** The end of a category *)

Section CategoryFacts.
Local Open Scope string_scope.

(** the branch [\s*\(] fails unless a parenthesis follows the whitespace *)
Lemma paren_branch_none {R : Type} (s : string) (k : string -> option R) :
  startswith "(" (lstrip s) = false ->
  star_greedy is_space s (fun _ s7 => lit "(" s7 k) = None.
Proof.
  induction s as [| c s IH]; intros H; [reflexivity |].
  cbn [star_greedy]. destruct (is_space c) eqn:Hc.
  - cbn [lstrip] in H. rewrite Hc in H. rewrite (IH H).
    cbn [lit]. now rewrite (space_not_lparen c Hc).
  - cbn [lstrip] in H. rewrite Hc in H. cbn [startswith] in H.
    rewrite andb_true_r in H. cbn [lit]. now rewrite H.
Qed.

Lemma category_end_paren (rank category w tail : string) :
  str_all is_space w = true ->
  category_end rank category (w ++ "(" ++ tail) = Some (rank, category, tail).
Proof.
  intros Hw. unfold category_end.
  rewrite (star_greedy_run is_space w ("(" ++ tail) _ (rank, category, tail));
    try reflexivity; try assumption.
Qed.

Lemma category_end_dollar (rank category s : string) :
  at_dollar s = true ->
  category_end rank category s = Some (rank, category, s).
Proof.
  intros H. unfold category_end. rewrite H.
  rewrite paren_branch_none; [reflexivity |].
  destruct s as [| c [| d s]]; try discriminate; [reflexivity |].
  cbn in H. apply Ascii.eqb_eq in H. subst c. reflexivity.
Qed.

Lemma category_end_none (rank category s : string) :
  startswith "(" (lstrip s) = false -> at_dollar s = false ->
  category_end rank category s = None.
Proof.
  intros H1 H2. unfold category_end. rewrite H2.
  now rewrite paren_branch_none.
Qed.

Lemma no_paren_after_space (s : string) :
  str_all not_lparen s = true -> startswith "(" (lstrip s) = false.
Proof.
  induction s as [| c s IH]; cbn [str_all lstrip]; [reflexivity |].
  intros H. apply andb_true_iff in H as [Hc Hs].
  destruct (is_space c); [auto |].
  cbn [startswith]. unfold not_lparen in Hc. apply negb_true_iff in Hc.
  rewrite Ascii.eqb_sym, Hc. reflexivity.
Qed.

Lemma no_paren_before_text (u x : string) :
  str_all not_lparen u = true -> str_all is_space u = false ->
  startswith "(" (lstrip (u ++ x)) = false.
Proof.
  induction u as [| c u IH]; cbn [str_all lstrip append]; [discriminate |].
  intros H Hs. apply andb_true_iff in H as [Hc Hu].
  destruct (is_space c) eqn:E; [auto |].
  cbn [startswith]. unfold not_lparen in Hc. apply negb_true_iff in Hc.
  rewrite Ascii.eqb_sym, Hc. reflexivity.
Qed.

Lemma star_lazy_unfold {R : Type} (cls : ascii -> bool) (s : string)
      (k : string -> string -> option R) :
  star_lazy cls s k =
  match k EmptyString s with
  | Some x => Some x
  | None =>
      match s with
      | String c s' =>
          if cls c then star_lazy cls s' (fun m r => k (String c m) r) else None
      | EmptyString => None
      end
  end.
Proof. destruct s; reflexivity. Qed.

(** The lazy category before a parenthesis: everything up to the
    whitespace that precedes the parenthesis. *)
Lemma lazy_to_paren (rank tail : string) (s : string) :
  str_all not_lparen s = true ->
  forall f : string -> string,
    star_lazy not_lparen (s ++ "(" ++ tail)
              (fun m r => category_end rank (f m) r)
    = Some (rank, f (rstrip s), tail).
Proof.
  induction s as [| c s IH]; intros Hs f.
  - rewrite star_lazy_unfold. now rewrite category_end_paren.
  - rewrite star_lazy_unfold.
    destruct (str_all is_space (String c s)) eqn:E.
    + rewrite (rstrip_all_space _ E). now rewrite category_end_paren.
    + rewrite (rstrip_cons _ _ E).
      rewrite category_end_none.
      * cbn [append]. cbn in Hs. apply andb_true_iff in Hs as [Hc Hs]. rewrite Hc.
        apply (IH Hs (fun m => f (String c m))).
      * apply no_paren_before_text; assumption.
      * destruct (at_dollar (String c s ++ "(" ++ tail)) eqn:D; [| reflexivity].
        apply at_dollar_all_space in D.
        rewrite str_all_app, E in D. discriminate.
Qed.

(** The lazy category at the end of the text: everything, up to a final
    newline. *)
Lemma lazy_to_dollar (rank : string) (s : string) :
  str_all not_lparen s = true ->
  forall f : string -> string,
    exists m r,
      s = m ++ r /\ at_dollar r = true /\ rstrip m = rstrip s /\
      star_lazy not_lparen s (fun m r => category_end rank (f m) r)
      = Some (rank, f m, r).
Proof.
  induction s as [| c s IH]; intros Hs f.
  - exists EmptyString, EmptyString. repeat split.
  - destruct (at_dollar (String c s)) eqn:D.
    + exists EmptyString, (String c s). repeat split; [exact D | |].
      * symmetry. apply rstrip_all_space. now apply at_dollar_all_space.
      * rewrite star_lazy_unfold. now rewrite category_end_dollar.
    + cbn in Hs. apply andb_true_iff in Hs as [Hc Hs].
      destruct (IH Hs (fun m => f (String c m))) as (m & r & -> & Hr & Hm & Hrun).
      exists (String c m), r. repeat split; [exact Hr | |].
      * cbn [rstrip]. now rewrite Hm.
      * rewrite star_lazy_unfold. cbn [append] in *.
        rewrite category_end_none; [now rewrite Hc | | exact D].
        apply (no_paren_after_space (String c (m ++ r))).
        cbn [str_all]. now rewrite Hc, Hs.
Qed.

End CategoryFacts.

(** ** Ranking texts *)

Section RankTextFacts.
Local Open Scope string_scope.

(** The pattern up to the category: the rank, whitespace, [in],
    whitespace; the category starts at [body]. *)
Lemma rank_pattern_head (ds ws1 ws2 body : string) (x : string * string * string) :
  is_empty ds = false -> str_all is_digit_or_comma ds = true ->
  is_empty ws1 = false -> str_all is_space ws1 = true ->
  is_empty ws2 = false -> str_all is_space ws2 = true ->
  stops is_space body = true ->
  plus_lazy not_lparen body (fun category s6 => category_end ds category s6) = Some x ->
  rank_pattern ("#" ++ ds ++ ws1 ++ "in" ++ ws2 ++ body) = Some x.
Proof.
  intros Hd1 Hd2 Hw1 Hw1' Hw2 Hw2' Hb Hx.
  unfold rank_pattern. rewrite lit_app.
  apply plus_greedy_run; try assumption.
  { destruct ws1 as [| c ws1]; [discriminate |].
    cbn in Hw1'. apply andb_true_iff in Hw1' as [Hc _].
    cbn. now rewrite (space_not_digit_or_comma c Hc). }
  apply plus_greedy_run; try assumption; [reflexivity |].
  rewrite lit_app.
  apply plus_greedy_run; assumption.
Qed.

(** A category text [String c s], which starts with a character that is
    not whitespace, followed by a parenthesis. *)
Lemma rank_pattern_paren (ds ws1 ws2 : string) (c : ascii) (s tail : string) :
  is_empty ds = false -> str_all is_digit_or_comma ds = true ->
  is_empty ws1 = false -> str_all is_space ws1 = true ->
  is_empty ws2 = false -> str_all is_space ws2 = true ->
  is_space c = false -> str_all not_lparen (String c s) = true ->
  rank_pattern ("#" ++ ds ++ ws1 ++ "in" ++ ws2 ++ String c s ++ "(" ++ tail)
  = Some (ds, rstrip (String c s), tail).
Proof.
  intros Hd1 Hd2 Hw1 Hw1' Hw2 Hw2' Hc Hs.
  apply rank_pattern_head; try assumption.
  { cbn. now rewrite Hc. }
  cbn in Hs. apply andb_true_iff in Hs as [Hc' Hs].
  cbn [append plus_lazy]. rewrite Hc'.
  rewrite rstrip_cons by (cbn; now rewrite Hc).
  exact (lazy_to_paren ds tail s Hs (fun m => String c m)).
Qed.

(** The same category text at the end of the text. *)
Lemma rank_pattern_dollar (ds ws1 ws2 : string) (c : ascii) (s : string) :
  is_empty ds = false -> str_all is_digit_or_comma ds = true ->
  is_empty ws1 = false -> str_all is_space ws1 = true ->
  is_empty ws2 = false -> str_all is_space ws2 = true ->
  is_space c = false -> str_all not_lparen (String c s) = true ->
  exists m r,
    s = m ++ r /\ at_dollar r = true /\
    rstrip (String c m) = rstrip (String c s) /\
    rank_pattern ("#" ++ ds ++ ws1 ++ "in" ++ ws2 ++ String c s)
    = Some (ds, String c m, r).
Proof.
  intros Hd1 Hd2 Hw1 Hw1' Hw2 Hw2' Hc Hs.
  cbn in Hs. apply andb_true_iff in Hs as [Hc' Hs].
  destruct (lazy_to_dollar ds s Hs (fun m => String c m)) as (m & r & E & Hr & Hm & Hrun).
  exists m, r. repeat split; try assumption.
  - cbn [rstrip]. now rewrite Hm.
  - apply rank_pattern_head; try assumption.
    + cbn. now rewrite Hc.
    + cbn [plus_lazy]. rewrite Hc'. exact Hrun.
Qed.

(** *** The scan of [findall] *)

Lemma findall_skip (m s : string) :
  findall_from (String.length m) (m ++ s) = findall_from 0 s.
Proof.
  induction m as [| c m IH]; [destruct s; reflexivity | exact IH].
Qed.

Lemma rank_pattern_needs_hash (c : ascii) (s : string) :
  Ascii.eqb "#" c = false -> rank_pattern (String c s) = None.
Proof. intros H. unfold rank_pattern. cbn [lit]. now rewrite H. Qed.

Lemma findall_without_hash (s : string) :
  str_any (Ascii.eqb "#") s = false -> findall_from 0 s = [].
Proof.
  induction s as [| c s IH]; [reflexivity |].
  cbn [str_any]. intros H. apply orb_false_iff in H as [Hc Hs].
  cbn [findall_from]. rewrite (rank_pattern_needs_hash c s Hc). auto.
Qed.

Lemma no_hash_unmatched (pre s : string) :
  no_hash pre -> unmatched pre s = true.
Proof.
  unfold no_hash. induction pre as [| c pre IH]; [reflexivity |].
  cbn [str_any]. intros H. apply orb_false_iff in H as [Hc Hs].
  cbn [unmatched append]. rewrite (rank_pattern_needs_hash c _ Hc). auto.
Qed.

Lemma findall_skips_unmatched (pre s : string) :
  unmatched pre s = true ->
  findall_from 0 (pre ++ s) = findall_from 0 s.
Proof.
  induction pre as [| c pre IH]; [reflexivity |].
  cbn [unmatched append].
  destruct (rank_pattern (String c (pre ++ s))) eqn:E; [discriminate |].
  intros H. cbn [findall_from]. rewrite E. auto.
Qed.

Lemma findall_after_match (c : ascii) (m rest rank category : string) :
  rank_pattern (String c (m ++ rest)) = Some (rank, category, rest) ->
  findall_from 0 (String c (m ++ rest)) = (rank, category) :: findall_from 0 rest.
Proof.
  intros H. cbn [findall_from]. rewrite H.
  rewrite str_length_app.
  replace (String.length m + String.length rest - String.length rest)%nat
    with (String.length m) by lia.
  now rewrite findall_skip.
Qed.

Lemma findall_at_dollar (r : string) :
  at_dollar r = true -> findall_from 0 r = [].
Proof.
  intros H. apply findall_without_hash.
  apply at_dollar_all_space in H.
  induction r as [| c r IH]; [reflexivity |].
  cbn [str_all str_any] in *. apply andb_true_iff in H as [Hc Hr].
  now rewrite (space_not_hash c Hc), IH.
Qed.

(** A category text that is not blank splits into leading whitespace and
    a text that starts with another character. *)
Lemma category_split (cat : string) :
  str_all is_space cat = false ->
  exists lead c s,
    cat = lead ++ String c s /\ str_all is_space lead = true /\ is_space c = false.
Proof.
  induction cat as [| c cat IH]; [discriminate |].
  cbn [str_all]. destruct (is_space c) eqn:E.
  - cbn. intros H. destruct (IH H) as (lead & d & s & -> & Hl & Hd).
    exists (String c lead), d, s. cbn. rewrite E, Hl. auto.
  - intros _. exists EmptyString, c, cat. auto.
Qed.

End RankTextFacts.

(** ** Extraction from a ranking text *)

(** Both sides of an equation between concatenations, nested to the right. *)
Ltac str_normalize :=
  repeat (progress (rewrite ?str_app_assoc; cbn [append])).

Section ExtractionFacts.
Local Open Scope string_scope.

Lemma digits_nonempty (ds : string) :
  str_any is_digit ds = true -> is_empty ds = false.
Proof. destruct ds; [discriminate | reflexivity]. Qed.

Lemma strip_text (c : ascii) (s : string) :
  is_space c = false -> strip (String c s) = rstrip (String c s).
Proof. intros H. unfold strip. now rewrite lstrip_head. Qed.

Lemma strip_rstrip_text (c : ascii) (s : string) :
  is_space c = false -> strip (rstrip (String c s)) = rstrip (String c s).
Proof.
  intros H.
  assert (E : str_all is_space (String c s) = false) by (cbn; now rewrite H).
  rewrite (rstrip_cons _ _ E), strip_text by exact H.
  rewrite <- (rstrip_cons _ _ E). apply rstrip_idempotent.
Qed.

(** An occurrence followed by a parenthesis: the first match is the
    occurrence, and the scan goes on after the parenthesis. *)
Lemma findall_occurrence_paren (pre ds ws1 ws2 cat tail : string) :
  unmatched pre ("#" ++ ds ++ ws1 ++ "in" ++ ws2 ++ cat ++ "(" ++ tail) = true ->
  digits_with_commas ds -> whitespace ws1 -> whitespace ws2 ->
  category_text cat ->
  exists c',
    strip c' = strip cat /\
    findall_rank (pre ++ "#" ++ ds ++ ws1 ++ "in" ++ ws2 ++ cat ++ "(" ++ tail)
    = (ds, c') :: findall_rank tail.
Proof.
  intros Hpre [Hd1 Hd2] [Hw1 Hw1'] [Hw2 Hw2'] [Hc1 Hc2].
  destruct (category_split cat Hc2) as (lead & c & s & -> & Hl & Hc).
  rewrite str_all_app in Hc1. apply andb_true_iff in Hc1 as [_ Hc1].
  exists (rstrip (String c s)). split.
  - rewrite strip_all_space_app by exact Hl.
    rewrite strip_rstrip_text, strip_text by exact Hc. reflexivity.
  - unfold findall_rank. rewrite findall_skips_unmatched by exact Hpre.
    assert (Hm : rank_pattern ("#" ++ ds ++ ws1 ++ "in" ++ (ws2 ++ lead)
                                   ++ String c s ++ "(" ++ tail)
                 = Some (ds, rstrip (String c s), tail)).
    { apply rank_pattern_paren; try assumption.
      - now apply digits_nonempty.
      - destruct ws2; [discriminate | reflexivity].
      - rewrite str_all_app. now rewrite Hw2', Hl. }
    replace ("#" ++ ds ++ ws1 ++ "in" ++ ws2 ++ (lead ++ String c s) ++ "(" ++ tail)
      with (String "#" ((ds ++ ws1 ++ "in" ++ (ws2 ++ lead) ++ String c s ++ "(") ++ tail))
      in *.
    2: { str_normalize. reflexivity. }
    apply findall_after_match.
    rewrite <- Hm. str_normalize. reflexivity.
Qed.

(** An occurrence that ends the text: the only match is the occurrence. *)
Lemma findall_occurrence_end (pre ds ws1 ws2 cat : string) :
  unmatched pre ("#" ++ ds ++ ws1 ++ "in" ++ ws2 ++ cat) = true ->
  digits_with_commas ds -> whitespace ws1 -> whitespace ws2 ->
  category_text cat ->
  exists c',
    strip c' = strip cat /\
    findall_rank (pre ++ "#" ++ ds ++ ws1 ++ "in" ++ ws2 ++ cat) = [(ds, c')].
Proof.
  intros Hpre [Hd1 Hd2] [Hw1 Hw1'] [Hw2 Hw2'] [Hc1 Hc2].
  destruct (category_split cat Hc2) as (lead & c & s & -> & Hl & Hc).
  rewrite str_all_app in Hc1. apply andb_true_iff in Hc1 as [_ Hc1].
  destruct (rank_pattern_dollar ds ws1 (ws2 ++ lead) c s) as (m & r & -> & Hr & Hm & Hrun);
    try assumption.
  { now apply digits_nonempty. }
  { destruct ws2; [discriminate | reflexivity]. }
  { rewrite str_all_app. now rewrite Hw2', Hl. }
  exists (String c m). split.
  - rewrite strip_all_space_app by exact Hl.
    rewrite !strip_text by exact Hc. exact Hm.
  - unfold findall_rank. rewrite findall_skips_unmatched by exact Hpre.
    replace ("#" ++ ds ++ ws1 ++ "in" ++ ws2 ++ lead ++ String c (m ++ r))
      with (String "#" ((ds ++ ws1 ++ "in" ++ (ws2 ++ lead) ++ String c m) ++ r)).
    2: { str_normalize. reflexivity. }
    rewrite (findall_after_match "#" _ r ds (String c m)).
    + now rewrite (findall_at_dollar r Hr).
    + rewrite <- Hrun. str_normalize. reflexivity.
Qed.

Lemma append_entries_app (ms : list (string * string)) :
  forall rankings,
    append_entries rankings ms =
    (new <- append_entries [] ms ;; ret (rankings ++ new)%list).
Proof.
  induction ms as [| [r c] ms IH]; intros rankings.
  - cbn. now rewrite app_nil_r.
  - cbn [append_entries].
    destruct (py_int (remove_char "," r)) as [e | n]; [reflexivity |].
    cbn [bind]. rewrite IH. rewrite (IH ([] ++ _)%list).
    destruct (append_entries [] ms) as [e | new]; [reflexivity |].
    cbn. now rewrite <- app_assoc.
Qed.

Lemma append_entries_one (rankings : list RankingEntry) (ds c' cat : string)
      (ms : list (string * string)) :
  digits_with_commas ds -> within_int_limit ds -> strip c' = strip cat ->
  append_entries rankings ((ds, c') :: ms) =
  (later <- append_entries [] ms ;; ret (rankings ++ entry_of ds cat :: later)%list).
Proof.
  intros [Hd1 Hd2] Hlim Hc. cbn [append_entries].
  rewrite (py_int_digits ds Hd1 Hd2 Hlim). cbn [bind].
  rewrite append_entries_app, Hc.
  destruct (append_entries [] ms) as [e | later]; [reflexivity |].
  cbn. now rewrite <- app_assoc.
Qed.

(** An occurrence closed by a parenthesis: its entry, then the entries of
    the text after the parenthesis. *)
Lemma extract_rankings_occurrence (rankings : list RankingEntry)
      (pre ds ws1 ws2 cat tail : string) :
  unmatched pre ("#" ++ ds ++ ws1 ++ "in" ++ ws2 ++ cat ++ "(" ++ tail) = true ->
  digits_with_commas ds -> within_int_limit ds ->
  whitespace ws1 -> whitespace ws2 -> category_text cat ->
  extract_rankings rankings
    (pre ++ "#" ++ ds ++ ws1 ++ "in" ++ ws2 ++ cat ++ "(" ++ tail)
  = (later <- extract_rankings [] tail ;;
     ret (rankings ++ entry_of ds cat :: later)%list).
Proof.
  intros Hpre Hd Hlim Hw1 Hw2 Hc.
  destruct (findall_occurrence_paren pre ds ws1 ws2 cat tail Hpre Hd Hw1 Hw2 Hc)
    as (c' & Hs & Hf).
  unfold extract_rankings. rewrite Hf. now apply append_entries_one.
Qed.

(** C2, as the code has it.  A ranking text [#<digits-with-commas> in <category>] that the scan
    reaches (no match of the pattern begins in what precedes it), whose
    digits are at most 4300, and whose category is closed by the end of the
    text or by a parenthesis after which the extraction succeeds, yields one
    entry, after the entries there were and before those of the text after
    the parenthesis: its rank is the number the digits denote, commas
    removed, its [rank_formatted] is the digits-and-commas text as written,
    and its category is the category text, stripped. *)
Theorem ranking_text_yields_entry (rankings later : list RankingEntry)
        (pre ds ws1 ws2 cat close : string) :
  digits_with_commas ds -> within_int_limit ds ->
  whitespace ws1 -> whitespace ws2 -> category_text cat ->
  unmatched pre ("#" ++ ds ++ ws1 ++ "in" ++ ws2 ++ cat ++ close) = true ->
  closes close later ->
  extract_rankings rankings
    (pre ++ "#" ++ ds ++ ws1 ++ "in" ++ ws2 ++ cat ++ close)
  = inr (rankings ++
         {| rank := int_digits 0 (remove_char "," ds);
            rank_formatted := ds;
            category := strip cat |} :: later)%list.
Proof.
  intros Hd Hlim Hw1 Hw2 Hc Hpre [[-> ->] | (tail & -> & Htail)].
  - rewrite str_app_nil_r in *.
    destruct (findall_occurrence_end pre ds ws1 ws2 cat Hpre Hd Hw1 Hw2 Hc)
      as (c' & Hs & Hf).
    unfold extract_rankings. rewrite Hf.
    now rewrite (append_entries_one rankings ds c' cat [] Hd Hlim Hs).
  - rewrite (extract_rankings_occurrence rankings pre ds ws1 ws2 cat tail)
      by assumption.
    now rewrite Htail.
Qed.

End ExtractionFacts.

(** ** The identifier of a URL *)

Section AsinFacts.
Local Open Scope string_scope.

Lemma asin_pattern_some (s a : string) :
  asin_pattern s = Some a ->
  exists post, dp_segment s EmptyString a post.
Proof.
  unfold asin_pattern. intros H.
  apply lit_inv in H as (r & -> & H).
  apply exactly_inv in H as (m & post & -> & Hlen & Hall & H).
  injection H as ->. exists post. now repeat split.
Qed.

Lemma asin_pattern_segment (s a post : string) :
  dp_segment s EmptyString a post -> asin_pattern s = Some a.
Proof.
  intros (-> & Hlen & Hall). unfold asin_pattern.
  cbn [append]. change (String "/" (String "d" (String "p" (String "/" (a ++ post)))))
    with ("/dp/" ++ a ++ post).
  rewrite lit_app, <- Hlen. now rewrite exactly_app.
Qed.

(** A segment is at the start of the URL or in what follows its first
    character. *)
Lemma dp_segment_cases (s pre a post : string) :
  dp_segment s pre a post ->
  (pre = EmptyString /\ asin_pattern s = Some a) \/
  (exists c p s', pre = String c p /\ s = String c s' /\ dp_segment s' p a post).
Proof.
  intros H. destruct pre as [| c p].
  - left. split; [reflexivity |]. now apply asin_pattern_segment with post.
  - right. destruct H as (-> & Hlen & Hall).
    exists c, p, (p ++ "/dp/" ++ a ++ post). now repeat split.
Qed.

Lemma search_asin_none (s : string) :
  search_asin s = None -> forall pre a post, ~ dp_segment s pre a post.
Proof.
  induction s as [| c s IH]; intros H pre a post Hseg.
  - apply dp_segment_cases in Hseg as [(_ & E) | (d & p & s' & _ & E & _)];
      [vm_compute in E |]; discriminate.
  - cbn [search_asin] in H.
    destruct (asin_pattern (String c s)) eqn:E; [discriminate |].
    apply dp_segment_cases in Hseg as [(_ & E') | (d & p & s' & _ & E' & Hseg)];
      [congruence |].
    injection E' as <- <-. exact (IH H p a post Hseg).
Qed.

(** [re.search] finds the leftmost segment. *)
Lemma search_asin_some (s a : string) :
  search_asin s = Some a ->
  exists pre post,
    dp_segment s pre a post /\
    forall pre' a' post',
      dp_segment s pre' a' post' -> (String.length pre <= String.length pre')%nat.
Proof.
  induction s as [| c s IH]; intros H.
  - vm_compute in H. discriminate.
  - cbn [search_asin] in H.
    destruct (asin_pattern (String c s)) as [m |] eqn:E.
    + injection H as ->.
      apply asin_pattern_some in E as (post & Hseg).
      exists EmptyString, post. split; [exact Hseg |]. intros. cbn. lia.
    + apply IH in H as (pre & post & (-> & Hlen & Hall) & Hleft).
      exists (String c pre), post. split; [now repeat split |].
      intros pre' a' post' Hseg.
      apply dp_segment_cases in Hseg as [(_ & E') | (d & p & s' & -> & E' & Hseg)];
        [congruence |].
      injection E' as <- <-. apply Hleft in Hseg. cbn. lia.
Qed.

(** C7, as the code has it.  The identifier is the ten characters of
    [[A-Z0-9]] after the leftmost [/dp/] that ten such characters follow,
    whatever comes after them; it is [N/A] when no [/dp/] of the URL is
    followed by ten such characters. *)
Theorem asin_is_first_ten_after_dp (url0 : string) :
  (exists pre a post,
     dp_segment url0 pre a post /\
     (forall pre' a' post',
        dp_segment url0 pre' a' post' ->
        (String.length pre <= String.length pre')%nat) /\
     extract_asin url0 = a) \/
  ((forall pre a post, ~ dp_segment url0 pre a post) /\
   extract_asin url0 = "N/A").
Proof.
  unfold extract_asin. destruct (search_asin url0) as [a |] eqn:E.
  - left. apply search_asin_some in E as (pre & post & Hseg & Hleft).
    exists pre, a, post. auto.
  - right. split; [now apply search_asin_none | reflexivity].
Qed.

Lemma exactly_ten_segment (s pre a post : string) :
  dp_segment_of_exactly_ten s pre a post -> has_segment_of_exactly_ten s = true.
Proof.
  revert s. induction pre as [| c pre IH]; intros s [(-> & Hlen & Hall) Hstop].
  - assert (E : exactly_ten_pattern ("/dp/" ++ a ++ post) = Some a).
    { unfold exactly_ten_pattern.
      rewrite lit_app, <- Hlen, exactly_app by exact Hall. now rewrite Hstop. }
    cbn [append] in *. cbn [has_segment_of_exactly_ten]. now rewrite E.
  - cbn [append has_segment_of_exactly_ten].
    destruct (exactly_ten_pattern _); [reflexivity |].
    apply IH. now repeat split.
Qed.

(** C7, as stated, fails: in this URL no [/dp/] is followed by exactly ten
    characters of [[A-Z0-9]] (eleven follow), and the identifier is not
    [N/A] but the first ten of them. *)
Lemma asin_of_eleven_characters :
  (forall pre a post,
     ~ dp_segment_of_exactly_ten "https://www.amazon.com/dp/B08N5WRWNWX" pre a post) /\
  extract_asin "https://www.amazon.com/dp/B08N5WRWNWX" = "B08N5WRWNW" /\
  extract_asin "https://www.amazon.com/dp/B08N5WRWNWX" <> "N/A".
Proof.
  split; [| split; [vm_compute; reflexivity | vm_compute; discriminate]].
  intros pre a post H. apply exactly_ten_segment in H.
  vm_compute in H. discriminate.
Qed.

End AsinFacts.

(** ** The properties at concrete inputs *)



(** C2, as stated, fails.  A rank of 4301 digits is of the form, and [int]
    raises on it: no entry.  An occurrence that follows a category with no
    parenthesis is part of that category: no entry of its own.  And an
    occurrence yields no entry when [int] raises for another match of the
    text. *)
Lemma ranking_text_without_entry :
  extract_rankings [] ("#" ++ long_rank ++ " in Books")
  = inl (ValueError "Exceeds the limit (4300 digits) for integer string conversion: value has 4301 digits; use sys.set_int_max_str_digits() to increase the limit") /\
  extract_rankings [] "#1 in Books #2 in Fiction"
  = inr [{| rank := 1; rank_formatted := "1"; category := "Books #2 in Fiction" |}] /\
  extract_rankings [] "#1 in Books (See Top 100) #,, in Fiction"
  = inl (ValueError "invalid literal for int() with base 10: ''").
Proof. repeat split; vm_compute; reflexivity. Qed.

Lemma ranking_text_yields_entry_witness :
  unmatched "Item #A1, Best Sellers Rank: "
    "#1,234 in Electronics (See Top 100 in Electronics) #56 in Headphones (See Top 100)"
  = true /\
  extract_rankings []
    "Item #A1, Best Sellers Rank: #1,234 in Electronics (See Top 100 in Electronics) #56 in Headphones (See Top 100)"
  = inr [{| rank := 1234; rank_formatted := "1,234"; category := "Electronics" |};
         {| rank := 56; rank_formatted := "56"; category := "Headphones" |}].
Proof.
  split; [vm_compute; reflexivity |].
  apply (ranking_text_yields_entry []
           [{| rank := 56; rank_formatted := "56"; category := "Headphones" |}]
           "Item #A1, Best Sellers Rank: " "1,234" " " " "
           "Electronics " "(See Top 100 in Electronics) #56 in Headphones (See Top 100)").
  - split; reflexivity.
  - vm_compute. discriminate.
  - split; reflexivity.
  - split; reflexivity.
  - split; reflexivity.
  - vm_compute. reflexivity.
  - right. exists "See Top 100 in Electronics) #56 in Headphones (See Top 100)".
    split; [reflexivity | vm_compute; reflexivity].
Defined.

Lemma rank_is_parsed_natural_witness :
  rank_parsed {| rank := 1234; rank_formatted := "1,234"; category := "Electronics" |}.
Proof.
  apply (@rank_is_parsed_natural table_library
           "https://www.amazon.com/dp/B08N5WRWNW" []).
  vm_compute. left. reflexivity.
Defined.

Lemma method_1_short_circuits_witness :
  @method_2 table_library table_soup []
  = inl (ValueError "invalid literal for int() with base 10: ''") /\
  @get_rankings table_library table_soup
  = inr [{| rank := 1234; rank_formatted := "1,234"; category := "Electronics" |};
         {| rank := 56; rank_formatted := "56"; category := "Headphones" |}].
Proof.
  split; [vm_compute; reflexivity |].
  apply (@method_1_short_circuits table_library table_soup).
  vm_compute. reflexivity.
Defined.

Lemma primary_mirrors_first_ranking_witness :
  let r := fst (@get_product_bsr table_library "https://www.amazon.com/dp/B08N5WRWNW" []) in
  status r = "success" /\
  primary_rank r = Some 1234%Z /\
  primary_rank_formatted r = "1,234" /\
  primary_category r = "Electronics".
Proof.
  split; [vm_compute; reflexivity |].
  apply (@primary_mirrors_first_ranking table_library
           "https://www.amazon.com/dp/B08N5WRWNW" []).
  vm_compute. reflexivity.
Defined.

Lemma main_without_urls_exits_witness :
  load_urls ("ftp://example.org/list" ++ nl ++ nl ++ "   # no URL here" ++ nl) = [] /\
  exists evs,
    @main mixed_library
          (Some ("ftp://example.org/list" ++ nl ++ nl ++ "   # no URL here" ++ nl)%string)
          [] = (1%Z, [] ++ evs) /\
    Forall (fun e => exists m, e = EvPrint m) evs /\
    requests evs = [] /\
    writes evs = [] /\
    suspensions evs = [].
Proof.
  split; [vm_compute; reflexivity |].
  apply (@main_without_urls_exits mixed_library).
  right. eexists. split; [reflexivity | vm_compute; reflexivity].
Defined.



Lemma error_record_has_no_asin_witness :
  let r := fst (@get_product_bsr down_library "https://www.amazon.com/dp/B08N5WRWNW" []) in
  extract_asin "https://www.amazon.com/dp/B08N5WRWNW" = "B08N5WRWNW" /\
  status r = "error" /\
  asin r = "N/A" /\ title r = "Error".
Proof.
  split; [vm_compute; reflexivity |].
  split; [vm_compute; reflexivity |].
  apply (@error_record_has_no_asin down_library
           "https://www.amazon.com/dp/B08N5WRWNW" []).
  vm_compute. reflexivity.
Defined.

(** ** Scenarios *)

(** The details table holds [#1,234 in Electronics (See Top 100 ...)]. *)
Example scenario_details_table :
  fst (@get_product_bsr table_library "https://www.amazon.com/dp/B08N5WRWNW" [])
  = {| url := "https://www.amazon.com/dp/B08N5WRWNW";
       asin := "B08N5WRWNW";
       title := "Noise Cancelling Headphones";
       primary_rank := Some 1234%Z;
       primary_rank_formatted := "1,234";
       primary_category := "Electronics";
       all_rankings :=
         [{| rank := 1234; rank_formatted := "1,234"; category := "Electronics" |};
          {| rank := 56; rank_formatted := "56"; category := "Headphones" |}];
       timestamp := "2024-01-01 00:00:00";
       status := "success";
       error := None |}.
Proof. vm_compute. reflexivity. Qed.

(** The request times out. *)
Example scenario_fetch_failure :
  fst (@get_product_bsr down_library "https://www.amazon.com/dp/B08N5WRWNW" [])
  = {| url := "https://www.amazon.com/dp/B08N5WRWNW";
       asin := "N/A";
       title := "Error";
       primary_rank := None;
       primary_rank_formatted := "Error";
       primary_category := "N/A";
       all_rankings := [];
       timestamp := "2024-01-01 00:00:00";
       status := "error";
       error := Some "Read timed out." |}.
Proof. vm_compute. reflexivity. Qed.

(** The rank is made of commas only: [int] raises inside the [try] block. *)
Example scenario_parse_failure :
  let r := fst (@get_product_bsr commas_library "https://www.amazon.com/dp/B08N5WRWNW" []) in
  status r = "error" /\
  error r = Some "Parsing error: invalid literal for int() with base 10: ''".
Proof. vm_compute. split; reflexivity. Qed.

(** Two ranks with no parenthesis between them are one match. *)
Example scenario_no_parenthesis :
  extract_rankings [] "#1 in Books #2 in Fiction"
  = inr [{| rank := 1; rank_formatted := "1"; category := "Books #2 in Fiction" |}].
Proof. vm_compute. reflexivity. Qed.

(** Three URLs, the second of which fails: three records, two suspensions. *)
Example scenario_three_urls :
  let run := @process_products mixed_library sample_urls 3 [] in
  option_map (map status) (match fst run with inr rs => Some rs | inl _ => None end)
  = Some ["success"; "error"; "success"] /\
  schedule_of (snd run)
  = [EvGet "https://www.amazon.com/dp/B08N5WRWNW"; EvSleep 3;
     EvGet "https://www.amazon.com/dp/missing"; EvSleep 3;
     EvGet "https://www.amazon.com/gp/product/B0BSHF7WHW"].
Proof. vm_compute. split; reflexivity. Qed.

(** [time.sleep] raises on a negative delay, outside any [try]. *)
Example scenario_negative_delay :
  fst (@process_products mixed_library sample_urls (-1) [])
  = inl (ValueError "sleep length must be non-negative").
Proof. vm_compute. reflexivity. Qed.

(** * Further properties *)

(** ** What a match is made of *)

Section MatcherInversion.
Local Open Scope string_scope.
Context {R : Type}.

Lemma star_greedy_inv (cls : ascii -> bool) (s : string) :
  forall (k : string -> string -> option R) (x : R),
    star_greedy cls s k = Some x ->
    exists m r, s = m ++ r /\ str_all cls m = true /\ k m r = Some x.
Proof.
  induction s as [| c s IH]; intros k x H.
  - exists EmptyString, EmptyString. auto.
  - cbn [star_greedy] in H. destruct (cls c) eqn:Hc.
    + destruct (star_greedy cls s (fun m r => k (String c m) r)) as [y |] eqn:E.
      * injection H as ->. apply IH in E as (m & r & -> & Hm & Hk).
        exists (String c m), r. cbn. rewrite Hc, Hm. auto.
      * exists EmptyString, (String c s). auto.
    + exists EmptyString, (String c s). auto.
Qed.

Lemma plus_greedy_inv (cls : ascii -> bool) (s : string)
      (k : string -> string -> option R) (x : R) :
  plus_greedy cls s k = Some x ->
  exists m r, s = m ++ r /\ is_empty m = false /\ str_all cls m = true /\
              k m r = Some x.
Proof.
  unfold plus_greedy. destruct s as [| c s]; [discriminate |].
  destruct (cls c) eqn:Hc; [| discriminate]. intros H.
  apply star_greedy_inv in H as (m & r & -> & Hm & Hk).
  exists (String c m), r. cbn. rewrite Hc, Hm. auto.
Qed.

Lemma star_lazy_inv (cls : ascii -> bool) (s : string) :
  forall (k : string -> string -> option R) (x : R),
    star_lazy cls s k = Some x ->
    exists m r, s = m ++ r /\ str_all cls m = true /\ k m r = Some x.
Proof.
  induction s as [| c s IH]; intros k x H; rewrite star_lazy_unfold in H.
  - destruct (k EmptyString EmptyString) eqn:E; [| discriminate].
    injection H as ->. exists EmptyString, EmptyString. auto.
  - destruct (k EmptyString (String c s)) eqn:E.
    + injection H as ->. exists EmptyString, (String c s). auto.
    + destruct (cls c) eqn:Hc; [| discriminate].
      apply IH in H as (m & r & -> & Hm & Hk).
      exists (String c m), r. cbn. rewrite Hc, Hm. auto.
Qed.

Lemma plus_lazy_inv (cls : ascii -> bool) (s : string)
      (k : string -> string -> option R) (x : R) :
  plus_lazy cls s k = Some x ->
  exists m r, s = m ++ r /\ is_empty m = false /\ str_all cls m = true /\
              k m r = Some x.
Proof.
  unfold plus_lazy. destruct s as [| c s]; [discriminate |].
  destruct (cls c) eqn:Hc; [| discriminate]. intros H.
  apply star_lazy_inv in H as (m & r & -> & Hm & Hk).
  exists (String c m), r. cbn. rewrite Hc, Hm. auto.
Qed.

End MatcherInversion.

Section OccurrenceFacts.
Local Open Scope string_scope.

Lemma category_end_inv (rank cat s : string) (x : string * string * string) :
  category_end rank cat s = Some x ->
  exists close rest,
    x = (rank, cat, rest) /\ s = close ++ rest /\
    ((exists w, close = w ++ "(" /\ str_all is_space w = true) \/
     (close = EmptyString /\ at_dollar rest = true)).
Proof.
  unfold category_end, alt.
  destruct (star_greedy is_space s _) as [y |] eqn:E.
  - intros H. injection H as ->.
    apply star_greedy_inv in E as (w & r & -> & Hw & Hk).
    apply lit_inv in Hk as (rest & -> & Hk). injection Hk as <-.
    exists (w ++ "("), rest. split; [reflexivity |].
    split; [now rewrite str_app_assoc | left; eauto].
  - destruct (at_dollar s) eqn:D; [| discriminate].
    intros H. injection H as <-. exists EmptyString, s. auto.
Qed.

(** A match of the rank pattern has the shape of the pattern. *)
Lemma rank_pattern_inv (s rank cat rest : string) :
  rank_pattern s = Some (rank, cat, rest) -> rank_occurrence s rank cat rest.
Proof.
  unfold rank_pattern. intros H.
  apply lit_inv in H as (s1 & -> & H).
  apply plus_greedy_inv in H as (ds & s2 & -> & Hd1 & Hd2 & H).
  apply plus_greedy_inv in H as (ws1 & s3 & -> & Hw1 & Hw1' & H).
  apply lit_inv in H as (s4 & -> & H).
  apply plus_greedy_inv in H as (ws2 & s5 & -> & Hw2 & Hw2' & H).
  apply plus_lazy_inv in H as (c & s6 & -> & Hc1 & Hc2 & H).
  apply category_end_inv in H as (close & rest' & Hx & -> & Hclose).
  injection Hx as <- <- <-.
  exists ws1, ws2, close. unfold whitespace. repeat split; assumption.
Qed.

(** Every match [findall] reports is a match of the pattern at some place
    of the text. *)
Lemma findall_from_sound (s : string) :
  forall skip rank cat,
    In (rank, cat) (findall_from skip s) ->
    exists pre suf rest, s = pre ++ suf /\ rank_pattern suf = Some (rank, cat, rest).
Proof.
  induction s as [| c s IH]; intros skip rank cat H; [destruct H |].
  assert (Hlater : forall k, In (rank, cat) (findall_from k s) ->
            exists pre suf rest,
              String c s = pre ++ suf /\ rank_pattern suf = Some (rank, cat, rest)).
  { intros k Hk. apply IH in Hk as (pre & suf & rest & -> & Hm).
    exists (String c pre), suf, rest. auto. }
  cbn [findall_from] in H. destruct skip as [| n]; [| eauto].
  destruct (rank_pattern (String c s)) as [[[r0 c0] rest0] |] eqn:E; [| eauto].
  destruct H as [H | H]; [| eauto].
  injection H as -> ->. exists EmptyString, (String c s), rest0. auto.
Qed.

Lemma rank_pattern_starts_with_hash (c : ascii) (s : string) :
  rank_pattern (String c s) <> None -> Ascii.eqb "#" c = true.
Proof.
  intros H. destruct (Ascii.eqb "#" c) eqn:E; [reflexivity |].
  now rewrite rank_pattern_needs_hash in H.
Qed.

Lemma findall_from_count (s : string) :
  forall skip, (List.length (findall_from skip s) <= count_char "#" s)%nat.
Proof.
  induction s as [| c s IH]; intros skip; [cbn; lia |].
  cbn [findall_from count_char]. destruct skip as [| n].
  - destruct (rank_pattern (String c s)) as [[[r0 c0] rest0] |] eqn:E.
    + rewrite (rank_pattern_starts_with_hash c s) by congruence.
      cbn [List.length]. specialize (IH (String.length s - String.length rest0)%nat). lia.
    + specialize (IH 0%nat). lia.
  - specialize (IH n). lia.
Qed.

End OccurrenceFacts.

(** ** More on stripping *)

Section StripFacts.
Local Open Scope string_scope.

Lemma str_all_lstrip (p : ascii -> bool) (s : string) :
  str_all p s = true -> str_all p (lstrip s) = true.
Proof.
  induction s as [| c s IH]; [reflexivity |].
  intros H. cbn [lstrip]. destruct (is_space c); [| exact H].
  cbn in H. apply andb_true_iff in H as [_ H]. auto.
Qed.

Lemma str_all_rstrip (p : ascii -> bool) (s : string) :
  str_all p s = true -> str_all p (rstrip s) = true.
Proof.
  induction s as [| c s IH]; [reflexivity |].
  cbn [str_all rstrip]. intros H. apply andb_true_iff in H as [Hc Hs].
  destruct (is_space c && is_empty (rstrip s)); [reflexivity |].
  cbn. rewrite Hc. auto.
Qed.

Lemma str_all_strip (p : ascii -> bool) (s : string) :
  str_all p s = true -> str_all p (strip s) = true.
Proof. intros H. unfold strip. now apply str_all_rstrip, str_all_lstrip. Qed.

Lemma lstrip_form (s : string) :
  lstrip s = EmptyString \/
  exists c t, lstrip s = String c t /\ is_space c = false.
Proof.
  induction s as [| c s IH]; [now left |].
  cbn [lstrip]. destruct (is_space c) eqn:E; [exact IH | right; eauto].
Qed.

Lemma strip_idempotent (s : string) : strip (strip s) = strip s.
Proof.
  unfold strip. destruct (lstrip_form s) as [-> | (c & t & -> & Hc)]; [reflexivity |].
  assert (E : str_all is_space (String c t) = false) by (cbn; now rewrite Hc).
  rewrite (rstrip_cons _ _ E), lstrip_head by exact Hc.
  rewrite <- (rstrip_cons _ _ E). apply rstrip_idempotent.
Qed.

Lemma remove_commas_only (r : string) :
  str_all is_digit_or_comma r = true -> str_any is_digit r = false ->
  remove_char "," r = EmptyString.
Proof.
  induction r as [| c r IH]; [reflexivity |].
  cbn [str_all str_any remove_char]. intros Ha Hn.
  apply andb_true_iff in Ha as [Hc Ha]. apply orb_false_iff in Hn as [Hd Hn].
  unfold is_digit_or_comma in Hc. rewrite Hd in Hc. cbn in Hc.
  rewrite Hc. auto.
Qed.

End StripFacts.

(** ** What extraction appends *)

Section AppendFacts.
Local Open Scope string_scope.

Lemma append_entries_matches (ms : list (string * string)) :
  forall rankings l,
    append_entries rankings ms = inr l ->
    exists new,
      l = (rankings ++ new)%list /\
      Forall2 (fun m e => rank_formatted e = fst m /\
                          category e = strip (snd m) /\
                          rank e = int_digits 0 (remove_char "," (fst m)))
              ms new.
Proof.
  induction ms as [| [r c] ms IH]; intros rankings l H.
  - cbn in H. injection H as <-. exists []. rewrite app_nil_r. split; constructor.
  - cbn [append_entries] in H. bind_inv H.
    apply IH in H as (new & -> & Hnew).
    exists ({| rank := a; rank_formatted := r; category := strip c |} :: new).
    rewrite <- app_assoc. split; [reflexivity |].
    constructor; [| exact Hnew].
    apply py_int_inr in E. cbn. tauto.
Qed.

Lemma findall_rank_occurrence (text rank cat : string) :
  In (rank, cat) (findall_rank text) ->
  exists pre suf rest, text = pre ++ suf /\ rank_occurrence suf rank cat rest.
Proof.
  intros H. apply findall_from_sound in H as (pre & suf & rest & -> & H).
  apply rank_pattern_inv in H. eauto.
Qed.

Lemma extract_rankings_new
      (rankings : list RankingEntry) (text : string) (l : list RankingEntry) :
  extract_rankings rankings text = inr l ->
  exists new,
    l = (rankings ++ new)%list /\
    Forall (entry_from text) new /\
    List.length new = List.length (findall_rank text).
Proof.
  unfold extract_rankings. intros H.
  apply append_entries_matches in H as (new & -> & Hnew).
  exists new. split; [reflexivity |]. split.
  - assert (Hin : forall m, In m (findall_rank text) -> In m (findall_rank text)) by auto.
    revert Hin Hnew. generalize (findall_rank text) at 1 3. intros ms Hin Hnew.
    induction Hnew as [| [r c] e ms new (Hr & Hc & Hn) _ IH]; constructor.
    + destruct (findall_rank_occurrence text r c) as (pre & suf & rest & -> & Hocc).
      { apply Hin. now left. }
      exists pre, suf, c, rest. cbn in *. rewrite Hr. auto.
    + apply IH. intros m Hm. apply Hin. now right.
  - symmetry. exact (Forall2_length Hnew).
Qed.

(** X1.  The entries extraction appends are built from matches of the
    pattern in the text, after the entries already there: each has the
    digits-and-commas text of a match as its [rank_formatted], the number
    it denotes as its rank and the stripped category of the match as its
    category; and there are no more of them than the text has [#]
    characters. *)
Theorem extracted_entries_occur
        (rankings : list RankingEntry) (text : string) (l : list RankingEntry) :
  extract_rankings rankings text = inr l ->
  exists new,
    l = (rankings ++ new)%list /\
    Forall (entry_from text) new /\
    (List.length new <= count_char "#" text)%nat.
Proof.
  intros H. apply extract_rankings_new in H as (new & -> & Hnew & Hlen).
  exists new. repeat split; [exact Hnew |].
  rewrite Hlen. apply findall_from_count.
Qed.

(** X2.  Extraction raises exactly when [int] rejects the rank of some
    match: a rank made of commas only, or a rank of more than 4300 digits.
    It then raises the [ValueError] of [int] for the first such match; the
    entries already in [rankings] play no part. *)
Theorem extract_rankings_raises_iff (rankings : list RankingEntry) (text : string) :
  ((exists e, extract_rankings rankings text = inl e) <->
   (exists rank cat, In (rank, cat) (findall_rank text) /\ int_rejects rank)) /\
  (forall e, extract_rankings rankings text = inl e -> int_error e).
Proof.
  unfold extract_rankings.
  assert (Hall : Forall (fun m => str_all is_digit_or_comma (fst m) = true)
                        (findall_rank text)).
  { apply Forall_forall. intros [r c] Hin.
    apply findall_rank_occurrence in Hin as (pre & suf & rest & _ & Hocc).
    destruct Hocc as (ws1 & ws2 & close & _ & _ & Hd & _). exact Hd. }
  revert rankings. induction Hall as [| [r c] ms Hr _ IH]; intros rankings.
  - cbn. split; [split |].
    + intros (e & He). discriminate.
    + intros (rank & cat & [] & _).
    + intros e He. discriminate.
  - cbn [append_entries fst] in *.
    destruct (str_any is_digit r) eqn:Hd.
    + destruct (Z_le_dec (Z.of_nat (String.length (remove_char "," r)))
                         int_max_str_digits) as [Hlim | Hlim].
      * rewrite (py_int_digits r Hr Hd Hlim). cbn [bind].
        destruct (IH (rankings ++ [{| rank := int_digits 0 (remove_char "," r);
                                      rank_formatted := r;
                                      category := strip c |}])%list) as [[IH1 IH2] IH3].
        split; [split |].
        -- intros He. apply IH1 in He as (rank & cat & Hin & Hn).
           exists rank, cat. split; [now right | exact Hn].
        -- intros (rank & cat & [Heq | Hin] & Hn).
           ++ injection Heq as <- <-. destruct Hn as [Hn | Hn]; [congruence | contradiction].
           ++ apply IH2. eauto.
        -- exact IH3.
      * rewrite (py_int_too_long r Hr Hd Hlim). cbn [bind].
        split; [split |].
        -- intros _. exists r, c. split; [now left | now right].
        -- intros _. eexists. reflexivity.
        -- intros e He. injection He as <-. right.
           exists (String.length (remove_char "," r)). split; [| reflexivity].
           unfold within_int_limit, int_max_str_digits in Hlim. lia.
    + unfold py_int. rewrite (remove_commas_only r Hr Hd). cbn.
      split; [split |].
      * intros _. exists r, c. split; [now left | now left].
      * intros _. eexists. reflexivity.
      * intros e He. left. now injection He as <-.
Qed.

End AppendFacts.

(** ** Invariants of the entries of a record *)

Section EntryInvariant.
Context {L : Library}.
Variable P : RankingEntry -> Prop.
Hypothesis extract_keeps :
  forall rankings text l,
    extract_rankings rankings text = inr l -> Forall P rankings -> Forall P l.

Lemma method_1_keeps (soup : Tag) (rankings l : list RankingEntry) :
  method_1 soup rankings = inr l -> Forall P rankings -> Forall P l.
Proof.
  unfold method_1. intros H Hr. bind_inv H.
  destruct a as [rank_section |]; [| injection H as <-; exact Hr].
  bind_inv H. destruct a as [rank_data |]; [| injection H as <-; exact Hr].
  bind_inv H. eapply extract_keeps; eauto.
Qed.

Lemma spans_loop_keeps (spans : list Tag) :
  forall rankings l,
    spans_loop spans rankings = inr l -> Forall P rankings -> Forall P l.
Proof.
  induction spans as [| span rest IH]; intros rankings l H Hr.
  - injection H as <-. exact Hr.
  - cbn [spans_loop] in H. bind_inv H. bind_inv H. bind_inv H.
    apply IH in H; [exact H |].
    destruct a0 as [parent |]; [| injection E1 as <-; exact Hr].
    bind_inv E1. eapply extract_keeps; eauto.
Qed.

Lemma method_2_keeps (soup : Tag) (rankings l : list RankingEntry) :
  method_2 soup rankings = inr l -> Forall P rankings -> Forall P l.
Proof.
  unfold method_2. intros H Hr. bind_inv H.
  destruct a as [detail_bullets |]; [| injection H as <-; exact Hr].
  bind_inv H. destruct a as [bsr_li |].
  - bind_inv H. eapply extract_keeps; eauto.
  - bind_inv H. eapply spans_loop_keeps; eauto.
Qed.

Lemma method_3_keeps (soup : Tag) (rankings l : list RankingEntry) :
  method_3 soup rankings = inr l -> Forall P rankings -> Forall P l.
Proof.
  unfold method_3. intros H Hr. bind_inv H.
  destruct a as [detail_section |]; [| injection H as <-; exact Hr].
  bind_inv H.
  destruct (contains "Best Sellers Rank" a); [| injection H as <-; exact Hr].
  eapply extract_keeps; eauto.
Qed.

Lemma get_rankings_keeps (soup : Tag) (l : list RankingEntry) :
  get_rankings soup = inr l -> Forall P l.
Proof.
  unfold get_rankings. intros H.
  bind_inv H. apply method_1_keeps in E; [| constructor].
  bind_inv H.
  assert (H0 : Forall P a0).
  { destruct (is_nil a); [eapply method_2_keeps; eauto | injection E0 as <-; exact E]. }
  bind_inv H. injection H as <-.
  destruct (is_nil a0); [eapply method_3_keeps; eauto | injection E1 as <-; exact H0].
Qed.

Lemma record_entries_keep (url0 : string) (h : history) (e : RankingEntry) :
  In e (all_rankings (fst (get_product_bsr url0 h))) -> P e.
Proof.
  destruct (get_product_bsr_cases url0 h) as (_ & [(r & E & ->) | (x & E & ->)]).
  - apply try_block_inr in E.
    destruct E as (_ & _ & _ & _ & _ & _ & _ & _ & soup & Hs).
    apply get_rankings_keeps in Hs. rewrite Forall_forall in Hs. apply Hs.
  - intros [].
Qed.

End EntryInvariant.

Lemma extract_rankings_clean (rankings : list RankingEntry) (text : string)
      (l : list RankingEntry) :
  extract_rankings rankings text = inr l ->
  Forall clean_category rankings -> Forall clean_category l.
Proof.
  intros H Hr. apply extract_rankings_new in H as (new & -> & Hnew & _).
  apply Forall_app. split; [exact Hr |].
  eapply Forall_impl; [| exact Hnew].
  intros e (pre & suf & cat & rest & _ & Hocc & Hc & _).
  destruct Hocc as (ws1 & ws2 & close & _ & _ & _ & _ & _ & _ & Hcat & _).
  unfold clean_category. rewrite Hc. split.
  - apply strip_idempotent.
  - now apply str_all_strip.
Qed.

Section RecordInvariants.
Context {L : Library}.

(** X3.  Every category of every record is stripped and holds no opening
    parenthesis. *)
Theorem record_categories_clean (url0 : string) (h : history) (e : RankingEntry) :
  In e (all_rankings (fst (get_product_bsr url0 h))) ->
  clean_category e.
Proof.
  apply (record_entries_keep clean_category extract_rankings_clean).
Qed.

(** X4.  The identifier of every record is [N/A] or ten characters of
    [[A-Z0-9]] that follow a [/dp/] of the URL. *)
Theorem record_asin_shape (url0 : string) (h : history) :
  let r := fst (get_product_bsr url0 h) in
  asin r = "N/A" \/
  exists pre post, dp_segment url0 pre (asin r) post.
Proof.
  cbv zeta.
  destruct (get_product_bsr_cases url0 h) as (_ & [(r & E & ->) | (x & E & ->)]).
  - apply try_block_inr in E. destruct E as (_ & -> & _).
    unfold extract_asin. destruct (search_asin url0) as [a |] eqn:Ea; [| now left].
    right. apply search_asin_some in Ea as (pre & post & Hseg & _). eauto.
  - now left.
Qed.

Lemma try_block_title (url0 : string) (h : history) (r : ProductRecord) :
  try_block url0 h = inr r ->
  title r = "Title not found" \/ exists text, title r = strip text.
Proof.
  unfold try_block. intros H.
  bind_inv H. bind_inv H. bind_inv H. bind_inv H. bind_inv H. bind_inv H.
  unfold ret in H. injection H as <-. cbn.
  destruct a2 as [title_element |].
  - bind_inv E3. unfold ret in E3. injection E3 as <-. eauto.
  - unfold ret in E3. injection E3 as <-. now left.
Qed.

(** X5.  The title of every record has no whitespace at its ends: it is
    the stripped text of the title element, [Title not found] or
    [Error]. *)
Theorem record_title_stripped (url0 : string) (h : history) :
  strip (title (fst (get_product_bsr url0 h))) = title (fst (get_product_bsr url0 h)).
Proof.
  destruct (get_product_bsr_cases url0 h) as (_ & [(r & E & ->) | (x & E & ->)]).
  - destruct (try_block_title _ _ _ E) as [-> | (text & ->)];
      [reflexivity | apply strip_idempotent].
  - reflexivity.
Qed.

End RecordInvariants.

(** ** Edges of the batch runner *)

Section BatchEdges.
Context {L : Library}.

(** The loop stops at the first suspension when [time.sleep] rejects the
    delay. *)
Lemma process_loop_rejected (u : string) (rest : list string) (delay : Z)
      (total i : nat) (results : list ProductRecord) (h : history) :
  (i < total)%nat -> ~ sleep_accepted delay ->
  exists e evs,
    process_loop delay total i (u :: rest) results h = (inl e, h ++ evs) /\
    requests evs = [u] /\
    suspensions evs = [] /\
    ((- sleep_max <= delay < 0)%Z ->
     e = ValueError "sleep length must be non-negative") /\
    ((delay < - sleep_max \/ sleep_max < delay)%Z ->
     exists msg, e = OverflowError msg).
Proof.
  intros Hi Hd. cbn [process_loop].
  set (h1 := h ++ _).
  destruct (get_product_bsr u h1) as [result h2] eqn:E.
  assert (Hh : h2 = h1 ++ [EvGet u]).
  { rewrite <- get_product_bsr_history. now rewrite E. }
  subst h2.
  set (m := EvPrint (if String.eqb (status result) "success" then _ else _)).
  destruct (Nat.ltb_spec i total) as [_ | Hge]; [| lia].
  unfold time_sleep, raise, sleep_accepted in *.
  destruct (Z.ltb_spec delay (- sleep_max)) as [Hlo | Hlo]; cbn [orb].
  - exists (OverflowError "timestamp too large to convert to C PyTime_t"),
      [EvPrint (MsgProcessing i total (take 60 u)); EvGet u; m].
    subst h1 m. rewrite <- !app_assoc. cbn [app].
    repeat split; try reflexivity; [lia | eauto].
  - destruct (Z.ltb_spec sleep_max delay) as [Hhi | Hhi].
    + exists (OverflowError "timestamp too large to convert to C PyTime_t"),
        [EvPrint (MsgProcessing i total (take 60 u)); EvGet u; m].
      subst h1 m. rewrite <- !app_assoc. cbn [app].
      repeat split; try reflexivity; [lia | eauto].
    + destruct (Z.ltb_spec delay 0) as [Hneg | Hneg]; [| lia].
      exists (ValueError "sleep length must be non-negative"),
        [EvPrint (MsgProcessing i total (take 60 u)); EvGet u; m].
      subst h1 m. rewrite <- !app_assoc. cbn [app].
      repeat split; try reflexivity. intros [? | ?]; lia.
Qed.

(** X6.  With two URLs or more, a delay [time.sleep] rejects (a negative
    one, or one of more than 9223372036 seconds) makes [process_products]
    raise after the first URL, provided it got past the estimate of line
    164: one request is made, nothing is suspended and no record is
    returned.  The error is the [ValueError] of a negative length, or an
    [OverflowError] when the delay is out of the range of the clock. *)
Theorem process_products_rejected_delay
        (u1 u2 : string) (rest : list string) (delay : Z) (h : history) :
  estimate_fits (List.length (u1 :: u2 :: rest)) delay ->
  ~ sleep_accepted delay ->
  exists e evs,
    process_products (u1 :: u2 :: rest) delay h = (inl e, h ++ evs) /\
    requests evs = [u1] /\
    suspensions evs = [] /\
    ((- sleep_max <= delay < 0)%Z ->
     e = ValueError "sleep length must be non-negative") /\
    ((delay < - sleep_max \/ sleep_max < delay)%Z ->
     exists msg, e = OverflowError msg).
Proof.
  intros He Hd. unfold process_products. rewrite He.
  set (total := List.length (u1 :: u2 :: rest)).
  destruct (process_loop_rejected u1 (u2 :: rest) delay total 1 []
              ((h ++ [EvPrint (MsgStarting total)])
                 ++ [EvPrint (MsgEstimated total delay)]))
    as (e & evs & Hrun & Hreq & Hsus & Hv & Ho); [subst total; cbn; lia | exact Hd |].
  exists e, ([EvPrint (MsgStarting total); EvPrint (MsgEstimated total delay)] ++ evs).
  split; [| split; [| split; [| split]]].
  - rewrite Hrun. now rewrite <- !app_assoc.
  - exact Hreq.
  - exact Hsus.
  - exact Hv.
  - exact Ho.
Qed.

(** X7.  With one URL or none, [process_products] never suspends: once
    past the estimate of line 164 it returns whatever the delay, a negative
    one included. *)
Theorem process_products_at_most_one
        (urls : list string) (delay : Z) (h : history) :
  (List.length urls <= 1)%nat ->
  estimate_fits (List.length urls) delay ->
  exists results evs,
    process_products urls delay h = (inr results, h ++ evs) /\
    records_of urls results /\
    requests evs = urls /\
    suspensions evs = [].
Proof.
  intros Hlen He.
  destruct (process_products_runs urls delay h He (or_introl Hlen))
    as (results & evs & Hrun & Hrec & Hs).
  exists results, evs. split; [exact Hrun |]. split; [exact Hrec |].
  rewrite <- requests_schedule_of, <- suspensions_schedule_of, Hs.
  split; [apply requests_schedule |].
  destruct urls as [| u [| v rest]]; [reflexivity | reflexivity | cbn in Hlen; lia].
Qed.


End BatchEdges.

(** ** The reports and the whole run *)

Lemma written_app (h1 h2 : history) :
  written (h1 ++ h2) = written h1 ++ written h2.
Proof.
  induction h1 as [| [m | u | d | f c] h1 IH]; cbn; rewrite ?IH; reflexivity.
Qed.

Lemma written_schedule_of (h : history) :
  schedule_of h = [] -> requests h = [] /\ suspensions h = [].
Proof.
  intros H. rewrite <- requests_schedule_of, <- suspensions_schedule_of, H. now split.
Qed.

Lemma fold_left_add (l : list Z) (a : Z) :
  fold_left Z.add l a = (a + fold_right Z.add 0 l)%Z.
Proof.
  revert a. induction l as [| x l IH]; intros a; cbn [fold_left fold_right]; [lia |].
  rewrite IH. lia.
Qed.

Lemma fold_left_min (l : list Z) (a : Z) :
  In (fold_left Z.min l a) (a :: l) /\
  Forall (fun x => (fold_left Z.min l a <= x)%Z) (a :: l).
Proof.
  revert a. induction l as [| x l IH]; intros a; cbn [fold_left].
  - split; [now left | repeat constructor; lia].
  - destruct (IH (Z.min a x)) as [Hin Hall].
    apply Forall_cons_iff in Hall as [Hm Hall]. split.
    + destruct Hin as [Hin | Hin]; [| now right; right].
      rewrite <- Hin. destruct (Z.min_spec a x) as [[_ ->] | [_ ->]];
        [now left | now right; left].
    + constructor; [lia |]. constructor; [lia | exact Hall].
Qed.

Lemma fold_left_max (l : list Z) (a : Z) :
  In (fold_left Z.max l a) (a :: l) /\
  Forall (fun x => (x <= fold_left Z.max l a)%Z) (a :: l).
Proof.
  revert a. induction l as [| x l IH]; intros a; cbn [fold_left].
  - split; [now left | repeat constructor; lia].
  - destruct (IH (Z.max a x)) as [Hin Hall].
    apply Forall_cons_iff in Hall as [Hm Hall]. split.
    + destruct Hin as [Hin | Hin]; [| now right; right].
      rewrite <- Hin. destruct (Z.max_spec a x) as [[_ ->] | [_ ->]];
        [now right; left | now left].
    + constructor; [lia |]. constructor; [lia | exact Hall].
Qed.

Lemma sum_between (l : list Z) (lo hi : Z) :
  Forall (fun x => (lo <= x <= hi)%Z) l ->
  (Z.of_nat (List.length l) * lo <= fold_right Z.add 0 l
   <= Z.of_nat (List.length l) * hi)%Z.
Proof.
  induction 1 as [| x l Hx _ IH]; [cbn; lia |].
  cbn [List.length fold_right]. lia.
Qed.

Lemma filter_complement {A : Type} (f : A -> bool) (l : list A) :
  (List.length l - List.length (filter f l))%nat
  = List.length (filter (fun x => negb (f x)) l).
Proof.
  induction l as [| x l IH]; [reflexivity |].
  pose proof (filter_length_le f l).
  cbn [filter]. destruct (f x); cbn [negb List.length]; lia.
Qed.

Lemma filter_split {A : Type} (f : A -> bool) (l : list A) :
  (List.length (filter f l) + List.length (filter (fun x => negb (f x)) l)
   = List.length l)%nat.
Proof.
  rewrite <- filter_complement. pose proof (filter_length_le f l). lia.
Qed.

(** The summary, case by case: no rank to average, or the least and the
    greatest of the ranks and what the three lines of statistics need. *)
Lemma display_summary_cases (results : list ProductRecord) (h : history) :
  let ranks := map rank_of (ranked_successes results) in
  let sum := fold_right Z.add 0%Z ranks in
  let count := List.length ranks in
  let h1 := h ++ summary_head results in
  let h2 := h1 ++ [EvPrint (Line (nl ++ "Ranking Statistics:"));
                   EvPrint (MsgAverage sum count)] in
  (ranks = [] /\ display_summary results h = (inr tt, h1)) \/
  (exists best worst,
     ranks <> [] /\ In best ranks /\ In worst ranks /\
     Forall (fun x => (best <= x <= worst)%Z) ranks /\
     display_summary results h =
       if true_divide_fits sum (Z.of_nat count) then
         if int_str_fits best then
           if int_str_fits worst
           then (inr tt, h2 ++ [EvPrint (MsgBest best); EvPrint (MsgWorst worst)])
           else (inl int_str_error, h2 ++ [EvPrint (MsgBest best)])
         else (inl int_str_error, h2)
       else (inl true_divide_error, h1)).
Proof.
  unfold display_summary, summary_head. cbv zeta.
  rewrite filter_complement. fold (ranked_successes results).
  destruct (map rank_of (ranked_successes results)) as [| r ranks] eqn:E.
  - left. split; reflexivity.
  - right. exists (fold_left Z.min ranks r), (fold_left Z.max ranks r).
    destruct (fold_left_min ranks r) as [Hmin_in Hmin].
    destruct (fold_left_max ranks r) as [Hmax_in Hmax].
    split; [discriminate |]. split; [exact Hmin_in |]. split; [exact Hmax_in |].
    split.
    { rewrite Forall_forall in *. intros x Hx.
      split; [now apply Hmin | now apply Hmax]. }
    rewrite fold_left_add. cbn [fold_right List.length].
    destruct (true_divide_fits _ _); [| reflexivity].
    destruct (int_str_fits (fold_left Z.min ranks r)); [| reflexivity].
    destruct (int_str_fits (fold_left Z.max ranks r)); [| reflexivity].
    unfold ret. now rewrite <- app_assoc.
Qed.

(** X8.  The summary always prints its six first lines and counts every
    record once: the failures are the records whose status is not
    [success], so that successes and failures add up to the total.  The
    statistics follow unless no successful record has a primary rank other
    than zero, in which case the summary returns, or the average of line
    225 cannot be computed. *)
Theorem display_summary_counts (results : list ProductRecord) (h : history) :
  exists successful failed statistics,
    snd (display_summary results h)
    = h ++ [EvPrint (Line (nl ++ rule)); EvPrint (Line "SUMMARY");
            EvPrint (Line rule); EvPrint (MsgTotal (List.length results));
            EvPrint (MsgSuccessful successful); EvPrint (MsgFailed failed)]
        ++ statistics /\
    successful = List.length (filter (fun r => String.eqb (status r) "success") results) /\
    failed = List.length (filter (fun r => negb (String.eqb (status r) "success")) results) /\
    (successful + failed = List.length results)%nat /\
    (statistics = [] <->
     ranked_successes results = [] \/ average_fits results = false) /\
    (ranked_successes results = [] -> fst (display_summary results h) = inr tt).
Proof.
  exists (List.length (filter (fun r => String.eqb (status r) "success") results)),
    (List.length (filter (fun r => negb (String.eqb (status r) "success")) results)).
  pose proof (filter_split (fun r => String.eqb (status r) "success") results) as Hsum.
  assert (Hst : exists st,
             snd (display_summary results h) = h ++ summary_head results ++ st /\
             (st = [] <-> ranked_successes results = [] \/ average_fits results = false) /\
             (ranked_successes results = [] -> fst (display_summary results h) = inr tt)).
  { unfold average_fits.
    destruct (display_summary_cases results h)
      as [[E Hrun] | (best & worst & Hne & _ & _ & _ & Hrun)]; cbv zeta in *.
    - exists []. rewrite Hrun, app_nil_r.
      assert (Hnil : ranked_successes results = []).
      { destruct (ranked_successes results); [reflexivity | discriminate]. }
      repeat split; auto.
    - assert (Hne' : ranked_successes results <> []).
      { intros H. apply Hne. now rewrite H. }
      assert (Hn : is_nil (map rank_of (ranked_successes results)) = false).
      { destruct (map rank_of (ranked_successes results)); [congruence | reflexivity]. }
      rewrite Hn. cbn [orb].
      destruct (true_divide_fits _ _).
      + assert (Hx : exists st,
                   snd (display_summary results h) = h ++ summary_head results ++ st /\
                   st <> []).
        { rewrite Hrun.
          destruct (int_str_fits best); [destruct (int_str_fits worst) |];
            cbn [snd]; rewrite <- !app_assoc; eexists;
            (split; [reflexivity | cbn [app]; discriminate]). }
        destruct Hx as (st & Hx & Hy). exists st. split; [exact Hx |]. split.
        * split; [intros; contradiction | intros [H | H]; [contradiction | discriminate]].
        * intros; contradiction.
      + exists []. rewrite Hrun, app_nil_r. split; [reflexivity |]. split.
        * split; [now right | reflexivity].
        * intros; contradiction. }
  destruct Hst as (st & Hrun & Hiff & Hret). exists st.
  split; [exact Hrun |]. split; [reflexivity |]. split; [reflexivity |].
  split; [exact Hsum |]. split; [exact Hiff | exact Hret].
Qed.

(** X9.  With some successful record of primary rank other than zero, the
    statistics are those of these records: their number, the sum of their
    ranks, the least and the greatest of these ranks, both attained; the sum
    lies between the number times the least and the number times the
    greatest.  The summary prints them and returns when the average can be
    computed and the least and the greatest rank can be written in decimal;
    otherwise it raises at the first of the three that cannot, with the
    lines before it printed. *)
Theorem display_summary_statistics (results : list ProductRecord) (h : history) :
  ranked_successes results <> [] ->
  exists sum count best worst,
    count = List.length (ranked_successes results) /\
    sum = fold_right Z.add 0%Z (map rank_of (ranked_successes results)) /\
    In best (map rank_of (ranked_successes results)) /\
    In worst (map rank_of (ranked_successes results)) /\
    Forall (fun r => (best <= rank_of r <= worst)%Z) (ranked_successes results) /\
    (Z.of_nat count * best <= sum <= Z.of_nat count * worst)%Z /\
    display_summary results h =
      let h1 := h ++ summary_head results in
      let h2 := h1 ++ [EvPrint (Line (nl ++ "Ranking Statistics:"));
                       EvPrint (MsgAverage sum count)] in
      if true_divide_fits sum (Z.of_nat count) then
        if int_str_fits best then
          if int_str_fits worst
          then (inr tt, h2 ++ [EvPrint (MsgBest best); EvPrint (MsgWorst worst)])
          else (inl int_str_error, h2 ++ [EvPrint (MsgBest best)])
        else (inl int_str_error, h2)
      else (inl true_divide_error, h1).
Proof.
  intros Hne.
  destruct (display_summary_cases results h)
    as [[E _] | (best & worst & _ & Hb & Hw & Hall & Hrun)]; cbv zeta in *.
  { destruct (ranked_successes results); [congruence | discriminate]. }
  exists (fold_right Z.add 0%Z (map rank_of (ranked_successes results))),
    (List.length (ranked_successes results)), best, worst.
  rewrite length_map in Hrun.
  split; [reflexivity |]. split; [reflexivity |].
  split; [exact Hb |]. split; [exact Hw |].
  split; [now rewrite Forall_map in Hall |].
  split; [| exact Hrun].
  apply sum_between in Hall. now rewrite length_map in Hall.
Qed.

(** ** The ranks of the records of a run *)

Lemma int_digits_bound (s : string) :
  forall acc : Z,
    str_all is_digit s = true -> (0 <= acc)%Z ->
    (int_digits acc s < (acc + 1) * 10 ^ Z.of_nat (String.length s))%Z.
Proof.
  induction s as [| c s IH]; intros acc H Hacc.
  - cbn. lia.
  - cbn [str_all] in H. apply andb_true_iff in H as [Hc Hs].
    pose proof (is_digit_value c Hc) as Hv.
    cbn [int_digits String.length].
    specialize (IH (10 * acc + digit_value c)%Z Hs ltac:(lia)).
    rewrite Nat2Z.inj_succ, Z.pow_succ_r by lia.
    assert (0 < 10 ^ Z.of_nat (String.length s))%Z by (apply Z.pow_pos_nonneg; lia).
    nia.
Qed.

(** What [int] returns can be written in decimal again. *)
Lemma py_int_fits (s : string) (n : Z) :
  py_int s = inr n -> int_str_fits n = true.
Proof.
  unfold py_int.
  destruct (is_empty s); [discriminate |].
  destruct (str_all is_digit s) eqn:Hd; [| discriminate].
  cbn [orb negb].
  destruct (Z.ltb_spec int_max_str_digits (Z.of_nat (String.length s))) as [| Hlen];
    [discriminate |].
  intros H. injection H as <-.
  pose proof (int_digits_nonneg s 0 Hd ltac:(lia)) as H0.
  pose proof (int_digits_bound s 0 Hd ltac:(lia)) as H1.
  unfold int_str_fits. apply Z.ltb_lt. rewrite Z.abs_eq by exact H0.
  eapply Z.lt_le_trans; [exact H1 |].
  rewrite Z.add_0_l, Z.mul_1_l.
  apply Z.pow_le_mono_r; lia.
Qed.

Lemma extract_rankings_fit (rankings : list RankingEntry) (text : string)
      (l : list RankingEntry) :
  extract_rankings rankings text = inr l ->
  Forall rank_fits rankings -> Forall rank_fits l.
Proof.
  unfold extract_rankings. generalize (findall_rank text) as ms.
  intros ms. revert rankings l.
  induction ms as [| [r c] ms IH]; intros rankings l H Hr.
  - cbn in H. now injection H as <-.
  - cbn [append_entries] in H. bind_inv H.
    apply IH in H; [exact H |].
    apply Forall_app. split; [exact Hr |].
    constructor; [| constructor].
    unfold rank_fits. cbn. now apply py_int_fits in E.
Qed.

Section RecordRanks.
Context {L : Library}.

Lemma record_ints_fit (url0 : string) (h : history) :
  forallb int_str_fits (record_ints (fst (get_product_bsr url0 h))) = true.
Proof.
  pose proof (record_entries_keep rank_fits extract_rankings_fit url0 h) as Hall.
  destruct (get_product_bsr_cases url0 h) as (_ & [(r & E & Hr) | (x & E & Hr)]);
    rewrite Hr in *; [| reflexivity].
  apply try_block_inr in E.
  destruct E as (_ & _ & _ & _ & _ & Hp & _).
  unfold record_ints. rewrite Hp.
  apply forallb_forall. intros n Hn. apply in_app_or in Hn as [Hn | Hn].
  - destruct (all_rankings r) as [| e es]; [destruct Hn |].
    cbn in Hn. destruct Hn as [<- | []]. apply (Hall e). now left.
  - apply in_map_iff in Hn as (e & <- & He). now apply (Hall e).
Qed.

Lemma records_ints_fit (urls : list string) (results : list ProductRecord) :
  records_of urls results ->
  forallb int_str_fits (flat_map record_ints results) = true.
Proof.
  induction 1 as [| u r urls results [_ (h & ->)] _ IH]; [reflexivity |].
  cbn [flat_map]. rewrite forallb_app, IH, record_ints_fit. reflexivity.
Qed.

Lemma records_ranks_fit (urls : list string) (results : list ProductRecord) :
  records_of urls results ->
  Forall (fun n => int_str_fits n = true) (map rank_of (ranked_successes results)).
Proof.
  intros H. apply records_ints_fit in H.
  rewrite forallb_forall in H.
  apply Forall_map, Forall_forall. intros r Hr.
  unfold ranked_successes in Hr. apply filter_In in Hr as [Hin Hk].
  apply andb_true_iff in Hk as [_ Hk].
  apply H. apply in_flat_map. exists r. split; [exact Hin |].
  unfold record_ints, rank_of, known_rank in *.
  destruct (primary_rank r); [now left | discriminate].
Qed.

End RecordRanks.

(** With ranks that can be written in decimal, the summary ends as line 225
    does, and makes no request, writes no file. *)
Lemma display_summary_of_ranks (results : list ProductRecord) (h : history) :
  Forall (fun n => int_str_fits n = true) (map rank_of (ranked_successes results)) ->
  exists evs,
    display_summary results h
    = (if average_fits results then inr tt else inl true_divide_error, h ++ evs) /\
    written evs = [] /\ schedule_of evs = [].
Proof.
  intros Hfit. unfold average_fits.
  destruct (display_summary_cases results h)
    as [[E Hrun] | (best & worst & Hne & Hb & Hw & _ & Hrun)]; cbv zeta in *.
  - rewrite E. cbn [is_nil orb]. exists (summary_head results).
    split; [exact Hrun | split; reflexivity].
  - rewrite Forall_forall in Hfit.
    rewrite (Hfit best Hb), (Hfit worst Hw) in Hrun.
    assert (Hn : is_nil (map rank_of (ranked_successes results)) = false).
    { destruct (map rank_of (ranked_successes results)); [congruence | reflexivity]. }
    rewrite Hn. cbn [orb]. rewrite Hrun.
    destruct (true_divide_fits _ _).
    + rewrite <- !app_assoc. eexists. split; [reflexivity | split; reflexivity].
    + exists (summary_head results). split; [reflexivity | split; reflexivity].
Qed.

Section RunFacts.
Context {L : Library}.

(** The batch runner writes no file, however it ends. *)
Lemma process_loop_writes_nothing (delay : Z) (total : nat) (urls : list string) :
  forall (i : nat) (results : list ProductRecord) (h : history),
    exists evs,
      snd (process_loop delay total i urls results h) = h ++ evs /\
      written evs = [].
Proof.
  induction urls as [| u rest IH]; intros i results h.
  - exists []. now rewrite app_nil_r.
  - cbn [process_loop]. set (h1 := h ++ _).
    destruct (get_product_bsr u h1) as [result h2] eqn:E.
    assert (Hh : h2 = h1 ++ [EvGet u]).
    { rewrite <- get_product_bsr_history. now rewrite E. }
    subst h2.
    set (m := EvPrint (if String.eqb (status result) "success" then _ else _)).
    destruct (i <? total)%nat.
    + unfold time_sleep, ret, raise.
      destruct ((delay <? - sleep_max) || (sleep_max <? delay))%Z;
        [| destruct (delay <? 0)%Z]; cbv beta iota.
      * eexists. subst h1. rewrite <- !app_assoc. cbn [snd app].
        split; reflexivity.
      * eexists. subst h1. rewrite <- !app_assoc. cbn [snd app].
        split; reflexivity.
      * destruct (IH (S i) (results ++ [result])
                     (((h1 ++ [EvGet u]) ++ [m]) ++ [EvSleep delay]))
          as (evs & Hevs & Hw).
        rewrite Hevs. subst h1. rewrite <- !app_assoc. cbn [app].
        eexists. split; [reflexivity |]. exact Hw.
    + destruct (IH (S i) (results ++ [result]) ((h1 ++ [EvGet u]) ++ [m]))
        as (evs & Hevs & Hw).
      rewrite Hevs. subst h1. rewrite <- !app_assoc. cbn [app].
      eexists. split; [reflexivity |]. exact Hw.
Qed.

Lemma process_products_writes_nothing (urls : list string) (delay : Z) (h : history) :
  exists evs,
    snd (process_products urls delay h) = h ++ evs /\ written evs = [].
Proof.
  unfold process_products. cbv zeta.
  destruct (true_divide_fits _ 60).
  - destruct (process_loop_writes_nothing delay (List.length urls) urls 1 []
                ((h ++ [EvPrint (MsgStarting (List.length urls))])
                   ++ [EvPrint (MsgEstimated (List.length urls) delay)]))
      as (evs & Hevs & Hw).
    rewrite Hevs. rewrite <- !app_assoc. eexists. split; [reflexivity |]. exact Hw.
  - eexists. split; reflexivity.
Qed.

(** X19.  For the records of a run the structured file is always written
    in full, and the summary can only fail at the average of line 225: it
    returns when that average can be computed, and raises the
    [OverflowError] of the division otherwise. *)
Theorem reports_of_a_run (urls : list string) (results : list ProductRecord)
        (filename : string) (h : history) :
  records_of urls results ->
  save_to_json results filename h
  = (inr tt, h ++ [EvWrite filename (Json results); EvPrint (MsgSaved filename)]) /\
  fst (display_summary results h)
  = (if average_fits results
     then inr tt
     else inl (OverflowError "integer division result too large for a float")).
Proof.
  intros Hrec. split.
  - unfold save_to_json. now rewrite (records_ints_fit urls results Hrec).
  - destruct (display_summary_of_ranks results h (records_ranks_fit urls results Hrec))
      as (evs & -> & _).
    reflexivity.
Qed.

(** X10.  With at least one valid URL, the run first requests every loaded
    URL, in order, three seconds apart, writing nothing; then, without any
    further request or suspension, it writes the two result files, the
    table before the structured file, both from the same records, one per
    URL, and prints the summary.  The exit status is 0 when the average of
    line 225 can be computed, and 1 otherwise: the division raises and
    nothing catches it. *)
Theorem main_with_urls (file : string) (h : history) :
  load_urls file <> [] ->
  estimate_fits (List.length (load_urls file)) 3 ->
  exists results run report,
    main (Some file) h
    = ((if average_fits results then 0 else 1)%Z, h ++ run ++ report) /\
    records_of (load_urls file) results /\
    schedule_of run = schedule (load_urls file) 3 /\
    written run = [] /\
    schedule_of report = [] /\
    written report
    = [("amazon_bsr_results.csv", Csv (csv_header :: map csv_row results));
       ("amazon_bsr_results.json", Json results)].
Proof.
  intros Hne He. unfold main.
  destruct (load_urls file) as [| u urls] eqn:E; [congruence |]. cbn [is_nil].
  set (h0 := h ++ [EvPrint (MsgLoaded (List.length (u :: urls)))]).
  assert (Hd : (List.length (u :: urls) <= 1)%nat \/ sleep_accepted 3).
  { right. unfold sleep_accepted, sleep_max. lia. }
  destruct (process_products_runs (u :: urls) 3 h0 He Hd)
    as (results & evs & Hrun & Hrec & Hsched).
  destruct (process_products_writes_nothing (u :: urls) 3 h0) as (evs' & Hevs & Hw).
  rewrite Hrun in Hevs. cbn [snd] in Hevs. apply app_inv_head in Hevs. subst evs'.
  rewrite Hrun. unfold save_to_json.
  rewrite (records_ints_fit (u :: urls) results Hrec). unfold ret, save_to_csv.
  match goal with
  | |- context [display_summary results ?hh] =>
      destruct (display_summary_of_ranks results hh
                  (records_ranks_fit (u :: urls) results Hrec))
        as (summary & Hsum & Hws & Hs)
  end.
  rewrite Hsum.
  destruct (average_fits results) eqn:Ha.
  - exists results, ([EvPrint (MsgLoaded (List.length (u :: urls)))] ++ evs),
      ([EvWrite "amazon_bsr_results.csv" (Csv (csv_header :: map csv_row results));
        EvPrint (MsgSaved "amazon_bsr_results.csv");
        EvWrite "amazon_bsr_results.json" (Json results);
        EvPrint (MsgSaved "amazon_bsr_results.json")] ++ summary).
    split; [| split; [exact Hrec | split; [| split; [| split]]]].
    + rewrite Ha. subst h0. rewrite <- !app_assoc. reflexivity.
    + rewrite schedule_of_app. exact Hsched.
    + rewrite written_app. exact Hw.
    + rewrite schedule_of_app, Hs. reflexivity.
    + rewrite written_app, Hws. reflexivity.
  - exists results, ([EvPrint (MsgLoaded (List.length (u :: urls)))] ++ evs),
      ([EvWrite "amazon_bsr_results.csv" (Csv (csv_header :: map csv_row results));
        EvPrint (MsgSaved "amazon_bsr_results.csv");
        EvWrite "amazon_bsr_results.json" (Json results);
        EvPrint (MsgSaved "amazon_bsr_results.json")]
         ++ summary ++ [EvPrint (MsgTraceback true_divide_error)]).
    split; [| split; [exact Hrec | split; [| split; [| split]]]].
    + rewrite Ha. subst h0. rewrite <- !app_assoc. reflexivity.
    + rewrite schedule_of_app. exact Hsched.
    + rewrite written_app. exact Hw.
    + rewrite !schedule_of_app, Hs. reflexivity.
    + rewrite !written_app, Hws. reflexivity.
Qed.

End RunFacts.

(** ** The URLs loaded from the file *)

Section LoadFacts.
Local Open Scope string_scope.

Lemma rstrip_app_space (s w : string) :
  str_all is_space w = true -> rstrip (s ++ w) = rstrip s.
Proof.
  intros Hw. induction s as [| c s IH]; cbn [append].
  - now apply rstrip_all_space.
  - cbn [rstrip]. now rewrite IH.
Qed.

Lemma lstrip_app (a b : string) :
  lstrip (a ++ b) = if str_all is_space a then lstrip b else lstrip a ++ b.
Proof.
  induction a as [| c a IH]; [reflexivity |].
  cbn [append lstrip str_all]. destruct (is_space c); [exact IH | reflexivity].
Qed.

Lemma strip_app_space (s w : string) :
  str_all is_space w = true -> strip (s ++ w) = strip s.
Proof.
  intros Hw. unfold strip. rewrite lstrip_app.
  destruct (str_all is_space s) eqn:E.
  - rewrite (rstrip_all_space (lstrip w)) by now apply str_all_lstrip.
    symmetry. apply rstrip_all_space. now apply str_all_lstrip.
  - now apply rstrip_app_space.
Qed.

Lemma str_any_lstrip (p : ascii -> bool) (s : string) :
  str_any p s = false -> str_any p (lstrip s) = false.
Proof.
  induction s as [| c s IH]; [reflexivity |].
  intros H. cbn [lstrip]. destruct (is_space c); [| exact H].
  cbn in H. apply orb_false_iff in H as [_ H]. auto.
Qed.

Lemma str_any_rstrip (p : ascii -> bool) (s : string) :
  str_any p s = false -> str_any p (rstrip s) = false.
Proof.
  induction s as [| c s IH]; [reflexivity |].
  cbn [str_any rstrip]. intros H. apply orb_false_iff in H as [Hc Hs].
  destruct (is_space c && is_empty (rstrip s)); [reflexivity |].
  cbn. rewrite Hc. auto.
Qed.

Lemma str_any_strip (p : ascii -> bool) (s : string) :
  str_any p s = false -> str_any p (strip s) = false.
Proof. intros H. unfold strip. now apply str_any_rstrip, str_any_lstrip. Qed.

(** A line has a line feed at its end at most. *)
Lemma lines_shape (s : string) :
  Forall (fun line =>
            exists body e,
              line = body ++ e /\
              (e = EmptyString \/ e = String LF EmptyString) /\
              str_any (fun c => Ascii.eqb c LF) body = false)
         (lines s).
Proof.
  induction s as [| c s IH]; [constructor |].
  cbn [lines]. destruct (Ascii.eqb c LF) eqn:E.
  - constructor; [| exact IH].
    apply Ascii.eqb_eq in E. subst c.
    exists EmptyString, (String LF EmptyString). auto.
  - destruct (lines s) as [| l ls].
    + constructor; [| constructor].
      exists (String c EmptyString), EmptyString. cbn. rewrite E. auto.
    + apply Forall_cons_iff in IH as [(body & e & -> & He & Hb) IH].
      constructor; [| exact IH].
      exists (String c body), e. cbn. rewrite E, Hb. auto.
Qed.

(** The lines are pieces of the text. *)
Lemma lines_chars (p : ascii -> bool) (s : string) :
  str_any p s = false -> Forall (fun line => str_any p line = false) (lines s).
Proof.
  induction s as [| c s IH]; [constructor |].
  cbn [str_any lines]. intros H. apply orb_false_iff in H as [Hc Hs].
  specialize (IH Hs). destruct (Ascii.eqb c LF).
  - constructor; [cbn; now rewrite Hc | exact IH].
  - destruct (lines s) as [| l ls].
    + constructor; [cbn; now rewrite Hc | constructor].
    + apply Forall_cons_iff in IH as [Hl IH].
      constructor; [cbn; now rewrite Hc, Hl | exact IH].
Qed.

(** Text mode leaves no carriage return. *)
Lemma universal_newlines_no_cr_step (s : string) :
  str_any (fun c => Ascii.eqb c CR) (universal_newlines s) = false /\
  forall c, str_any (fun c => Ascii.eqb c CR) (universal_newlines (String c s)) = false.
Proof.
  induction s as [| d s [IH1 IH2]].
  - split; [reflexivity |]. intros c. cbn [universal_newlines].
    destruct (Ascii.eqb c CR) eqn:E; cbn [str_any]; [reflexivity | now rewrite E].
  - split; [apply IH2 |]. intros c.
    cbn [universal_newlines]. destruct (Ascii.eqb c CR) eqn:E.
    + destruct (Ascii.eqb d LF); cbn [str_any];
        change (Ascii.eqb LF CR) with false; cbn [orb]; [exact IH1 | apply IH2].
    + cbn [str_any]. rewrite E. cbn [orb]. apply IH2.
Qed.

Lemma universal_newlines_no_cr (s : string) :
  str_any (fun c => Ascii.eqb c CR) (universal_newlines s) = false.
Proof. apply universal_newlines_no_cr_step. Qed.

(** X12.  Every URL loaded from the file starts with [http], has no
    whitespace at its ends and holds no line feed and no carriage return:
    it comes from one line of the file. *)
Theorem loaded_urls_shape (file u : string) :
  In u (load_urls file) ->
  startswith "http" u = true /\
  strip u = u /\
  str_any is_newline u = false /\
  exists line, In line (lines (universal_newlines file)) /\ u = strip line.
Proof.
  unfold load_urls. intros H.
  apply in_map_iff in H as (line & <- & H).
  apply filter_In in H as [Hin Hf].
  apply andb_true_iff in Hf as [_ Hf].
  split; [exact Hf |]. split; [apply strip_idempotent |].
  split; [| eauto].
  pose proof (lines_shape (universal_newlines file)) as Hshape.
  pose proof (lines_chars _ _ (universal_newlines_no_cr file)) as Hcr.
  rewrite Forall_forall in Hshape, Hcr.
  destruct (Hshape line Hin) as (body & e & -> & He & Hlf).
  specialize (Hcr _ Hin). rewrite str_any_app in Hcr.
  apply orb_false_iff in Hcr as [Hcr _].
  assert (Hs : strip (body ++ e) = strip body).
  { destruct He as [-> | ->]; [now rewrite str_app_nil_r |].
    now apply strip_app_space. }
  rewrite Hs. apply str_any_strip.
  clear -Hlf Hcr. induction body as [| c body IH]; [reflexivity |].
  cbn [str_any] in *. apply orb_false_iff in Hlf as [Hc1 Hlf].
  apply orb_false_iff in Hcr as [Hc2 Hcr].
  unfold is_newline at 1. rewrite Hc1, Hc2. cbn [orb]. auto.
Qed.

End LoadFacts.

(** ** The table *)

Section TableFacts.
Local Open Scope string_scope.



End TableFacts.

Section StatisticsFacts.
Context {L : Library}.

(** X14.  For records made by [get_product_bsr], every rank that enters
    the statistics of the summary is at least 1: a rank of zero can be
    extracted, but the summary takes it for an unknown rank. *)
Theorem statistics_ranks_positive (results : list ProductRecord) :
  Forall (fun r => exists url0 h, r = fst (get_product_bsr url0 h)) results ->
  Forall (fun r => (1 <= rank_of r)%Z) (ranked_successes results).
Proof.
  intros Hall. apply Forall_forall. intros r Hin.
  unfold ranked_successes in Hin. apply filter_In in Hin as [Hin Hf].
  apply andb_true_iff in Hf as [_ Hk].
  rewrite Forall_forall in Hall. destruct (Hall r Hin) as (url0 & h & ->).
  unfold known_rank, rank_of in *.
  destruct (primary_rank (fst (get_product_bsr url0 h))) as [n |] eqn:En;
    [| discriminate].
  apply negb_true_iff, Z.eqb_neq in Hk.
  enough (0 <= n)%Z by lia.
  destruct (get_product_bsr_cases url0 h) as (_ & [(r & E & Hr) | (x & E & Hr)]);
    rewrite Hr in *.
  - pose proof (try_block_inr _ _ _ E) as (_ & _ & _ & _ & _ & Hp & _ & _ & soup & Hs).
    apply get_rankings_parsed in Hs.
    rewrite Hp in En. destruct (all_rankings r) as [| e l]; [discriminate |].
    cbn in En. injection En as <-.
    apply Forall_cons_iff in Hs as [(_ & _ & _ & Hpos) _]. exact Hpos.
  - discriminate.
Qed.

End StatisticsFacts.

(** ** Texts of several ranks *)

(** X15.  A text of several ranks of 4300 digits at most, each reached by
    the scan and closed by an opening parenthesis, yields one entry per
    rank, in the order of the text, after the entries already there and
    before the entries of what follows the last parenthesis. *)
Theorem ranks_in_document_order
        (rankings : list RankingEntry) (os : list occurrence) (tail : string)
        (later : list RankingEntry) :
  Forall well_formed os ->
  reached os tail ->
  extract_rankings [] tail = inr later ->
  extract_rankings rankings (ranks_text os tail)
  = inr (rankings ++ map (fun o => entry_of (o_rank o) (o_cat o)) os ++ later).
Proof.
  intros Hos Hre Htail. revert rankings.
  induction Hos as [| o os (Hd & Hlim & Hw1 & Hw2 & Hc) _ IH]; intros rankings.
  - cbn [ranks_text map app]. unfold extract_rankings in *.
    rewrite append_entries_app, Htail. reflexivity.
  - cbn [ranks_text map]. destruct Hre as [Hp Hre].
    rewrite (extract_rankings_occurrence rankings (o_pre o) (o_rank o) (o_ws1 o)
               (o_ws2 o) (o_cat o) (ranks_text os tail) Hp Hd Hlim Hw1 Hw2 Hc).
    rewrite (IH Hre []). reflexivity.
Qed.

(** ** The further properties at concrete inputs *)

Lemma extracted_entries_occur_witness :
  exists new,
    [{| rank := 7; rank_formatted := "7"; category := "Books" |}]
    = ([] ++ new)%list /\
    Forall (entry_from "Rank: #7 in Books (See Top 100)") new /\
    (List.length new <= count_char "#" "Rank: #7 in Books (See Top 100)")%nat.
Proof.
  apply (extracted_entries_occur [] "Rank: #7 in Books (See Top 100)").
  vm_compute. reflexivity.
Defined.

Lemma record_categories_clean_witness :
  clean_category {| rank := 1234; rank_formatted := "1,234"; category := "Electronics" |}.
Proof.
  apply (@record_categories_clean table_library
           "https://www.amazon.com/dp/B08N5WRWNW" []).
  vm_compute. left. reflexivity.
Defined.

Lemma process_products_rejected_delay_witness :
  exists e evs,
    @process_products mixed_library sample_urls (-1) [] = (inl e, [] ++ evs) /\
    requests evs = ["https://www.amazon.com/dp/B08N5WRWNW"] /\
    suspensions evs = [] /\
    ((- sleep_max <= -1 < 0)%Z ->
     e = ValueError "sleep length must be non-negative") /\
    ((-1 < - sleep_max \/ sleep_max < -1)%Z ->
     exists msg, e = OverflowError msg).
Proof.
  apply (@process_products_rejected_delay mixed_library
           "https://www.amazon.com/dp/B08N5WRWNW"
           "https://www.amazon.com/dp/missing"
           ["https://www.amazon.com/gp/product/B0BSHF7WHW"] (-1) []).
  - vm_compute. reflexivity.
  - unfold sleep_accepted. lia.
Defined.

Lemma process_products_at_most_one_witness :
  exists results evs,
    @process_products mixed_library ["https://www.amazon.com/dp/B08N5WRWNW"] (-5) []
    = (inr results, [] ++ evs) /\
    @records_of mixed_library ["https://www.amazon.com/dp/B08N5WRWNW"] results /\
    requests evs = ["https://www.amazon.com/dp/B08N5WRWNW"] /\
    suspensions evs = [].
Proof.
  apply (@process_products_at_most_one mixed_library
           ["https://www.amazon.com/dp/B08N5WRWNW"] (-5) []).
  - cbn. lia.
  - vm_compute. reflexivity.
Defined.

Lemma display_summary_statistics_witness :
  map rank_of (ranked_successes sample_results) = [1234%Z; 7%Z] /\
  exists sum count best worst,
    count = List.length (ranked_successes sample_results) /\
    sum = fold_right Z.add 0%Z (map rank_of (ranked_successes sample_results)) /\
    In best (map rank_of (ranked_successes sample_results)) /\
    In worst (map rank_of (ranked_successes sample_results)) /\
    Forall (fun r => (best <= rank_of r <= worst)%Z) (ranked_successes sample_results) /\
    (Z.of_nat count * best <= sum <= Z.of_nat count * worst)%Z /\
    display_summary sample_results [] =
      let h1 := [] ++ summary_head sample_results in
      let h2 := h1 ++ [EvPrint (Line (nl ++ "Ranking Statistics:"));
                       EvPrint (MsgAverage sum count)] in
      if true_divide_fits sum (Z.of_nat count) then
        if int_str_fits best then
          if int_str_fits worst
          then (inr tt, h2 ++ [EvPrint (MsgBest best); EvPrint (MsgWorst worst)])
          else (inl int_str_error, h2 ++ [EvPrint (MsgBest best)])
        else (inl int_str_error, h2)
      else (inl true_divide_error, h1).
Proof.
  split; [vm_compute; reflexivity |].
  apply (display_summary_statistics sample_results []).
  vm_compute. discriminate.
Defined.

Lemma reports_of_a_run_witness :
  let results :=
    [fst (@get_product_bsr huge_library "https://www.amazon.com/dp/B08N5WRWNW" [])] in
  average_fits results = false /\
  save_to_json results "amazon_bsr_results.json" []
  = (inr tt, [] ++ [EvWrite "amazon_bsr_results.json" (Json results);
                    EvPrint (MsgSaved "amazon_bsr_results.json")]) /\
  fst (display_summary results [])
  = (if average_fits results
     then inr tt
     else inl (OverflowError "integer division result too large for a float")).
Proof.
  split; [vm_compute; reflexivity |].
  apply (@reports_of_a_run huge_library ["https://www.amazon.com/dp/B08N5WRWNW"]).
  constructor; [| constructor].
  split; [vm_compute; reflexivity | exists []; reflexivity].
Defined.

Lemma main_with_urls_witness :
  load_urls sample_file
  = ["https://www.amazon.com/dp/B08N5WRWNW"; "https://www.amazon.com/dp/missing"] /\
  exists results run report,
    @main mixed_library (Some sample_file) []
    = ((if average_fits results then 0 else 1)%Z, [] ++ run ++ report) /\
    @records_of mixed_library (load_urls sample_file) results /\
    schedule_of run = schedule (load_urls sample_file) 3 /\
    written run = [] /\
    schedule_of report = [] /\
    written report
    = [("amazon_bsr_results.csv", Csv (csv_header :: map csv_row results));
       ("amazon_bsr_results.json", Json results)].
Proof.
  split; [vm_compute; reflexivity |].
  apply (@main_with_urls mixed_library sample_file []).
  - vm_compute. discriminate.
  - vm_compute. reflexivity.
Defined.

Lemma loaded_urls_shape_witness :
  startswith "http" "https://www.amazon.com/dp/B08N5WRWNW" = true /\
  strip "https://www.amazon.com/dp/B08N5WRWNW" = "https://www.amazon.com/dp/B08N5WRWNW" /\
  str_any is_newline "https://www.amazon.com/dp/B08N5WRWNW" = false /\
  exists line,
    In line (lines (universal_newlines sample_file)) /\
    "https://www.amazon.com/dp/B08N5WRWNW" = strip line.
Proof.
  apply (loaded_urls_shape sample_file "https://www.amazon.com/dp/B08N5WRWNW").
  vm_compute. left. reflexivity.
Defined.

Lemma statistics_ranks_positive_witness :
  Forall (fun r => (1 <= rank_of r)%Z) (ranked_successes [table_record]).
Proof.
  apply (@statistics_ranks_positive table_library [table_record]).
  constructor; [| constructor].
  exists "https://www.amazon.com/dp/B08N5WRWNW", []. reflexivity.
Defined.

Lemma ranks_in_document_order_witness :
  extract_rankings []
    "Item #A1, rank #1,234 in Electronics (See Top 100 in Electronics) #56 in Headphones (See Top 100)"
  = inr [{| rank := 1234; rank_formatted := "1,234"; category := "Electronics" |};
         {| rank := 56; rank_formatted := "56"; category := "Headphones" |}].
Proof.
  apply (ranks_in_document_order [] sample_occurrences "See Top 100)" []).
  - repeat constructor; vm_compute; (reflexivity || discriminate).
  - repeat split; vm_compute; reflexivity.
  - vm_compute. reflexivity.
Defined.

(** ** Further scenarios *)

(** A delay of 10^400 seconds: line 164 raises before any request. *)
Example scenario_estimate_overflow :
  @process_products mixed_library sample_urls (10 ^ 400) []
  = (inl (OverflowError "integer division result too large for a float"),
     [EvPrint (MsgStarting 3)]).
Proof. vm_compute. reflexivity. Qed.

(** A run over the file of two URLs ends with status 0. *)
Example scenario_whole_run :
  fst (@main mixed_library (Some sample_file) []) = 0%Z /\
  writes (snd (@main mixed_library (Some sample_file) []))
  = ["amazon_bsr_results.csv"; "amazon_bsr_results.json"].
Proof. vm_compute. split; reflexivity. Qed.

(** A rank of 310 digits: both files are written, then line 225 raises and
    the run ends with status 1. *)
Example scenario_huge_rank :
  fst (@main huge_library (Some "https://www.amazon.com/dp/B08N5WRWNW") []) = 1%Z /\
  writes (snd (@main huge_library (Some "https://www.amazon.com/dp/B08N5WRWNW") []))
  = ["amazon_bsr_results.csv"; "amazon_bsr_results.json"] /\
  last (snd (@main huge_library (Some "https://www.amazon.com/dp/B08N5WRWNW") []))
       (EvPrint (Line EmptyString))
  = EvPrint (MsgTraceback
               (OverflowError "integer division result too large for a float")).
Proof. vm_compute. repeat split; reflexivity. Qed.

(** ** The spans of Method 2 *)

Section SpanFacts.
Context {L : Library}.

(** X17.  The loop over the spans of Method 2 extracts the text of the
    enclosing list item once per span: when the spans have the same list
    item, the entries of its text are appended as many times as there are
    spans. *)
Theorem spans_loop_repeats
        (spans : list Tag) (p : Tag) (text : string)
        (es rankings : list RankingEntry) :
  Forall (fun span => find_parent span "li" = inr (Some p)) spans ->
  get_text p = inr text ->
  extract_rankings [] text = inr es ->
  spans_loop spans rankings
  = inr (rankings ++ concat (repeat es (List.length spans))).
Proof.
  intros Hspans Htext Hes. revert rankings.
  induction Hspans as [| span spans Hp _ IH]; intros rankings.
  - cbn. now rewrite app_nil_r.
  - cbn [spans_loop]. rewrite Hp. cbn [bind ret]. rewrite Htext. cbn [bind].
    unfold extract_rankings in *. rewrite append_entries_app, Hes. cbn [bind ret].
    rewrite IH. cbn [List.length repeat concat]. now rewrite app_assoc.
Qed.

End SpanFacts.

Lemma spans_loop_repeats_witness :
  @get_rankings two_spans_library {| document := two_spans_page; path := [] |}
  = inr [{| rank := 7; rank_formatted := "7"; category := "Books" |};
         {| rank := 7; rank_formatted := "7"; category := "Books" |}] /\
  @spans_loop two_spans_library
    [{| document := two_spans_page; path := [0; 0; 0; 0]%nat |};
     {| document := two_spans_page; path := [0; 0; 0; 2]%nat |}] []
  = inr ([] ++ concat (repeat [{| rank := 7; rank_formatted := "7"; category := "Books" |}] 2)).
Proof.
  split; [vm_compute; reflexivity |].
  apply (@spans_loop_repeats two_spans_library
           [{| document := two_spans_page; path := [0; 0; 0; 0]%nat |};
            {| document := two_spans_page; path := [0; 0; 0; 2]%nat |}]
           {| document := two_spans_page; path := [0; 0; 0]%nat |}
           "Best Sellers Rank: #7 in Books (See the Best Sellers Rank list)").
  - repeat constructor.
  - vm_compute. reflexivity.
  - vm_compute. reflexivity.
Defined.
